(** * The federated agent subsystem: messages, transport, agents, orchestrator

    A shallow embedding of [message_schema.py], [message_queue.py],
    [agents.py] and [orchestrator.py] of the federated-agents lab, and the
    properties of its specification proved or refuted on it.

    Python values are modelled as follows. A [str] is a [string] whose
    characters are the code points below 256; an [int] is a [Z]; a [dict]
    with string keys is an association list in insertion order with distinct
    keys; a JSON document is a [json] tree. Floating-point numbers are not
    modelled. *)

From Stdlib Require Import ZArith String Ascii List Lia.
From Stdlib Require Import DecimalString DecimalPos DecimalZ DecimalFacts.
From stdpp Require Import gmap strings list fin_maps.

#[local] Arguments String.append !_ _ / : simpl nomatch.

(** * The json module of the standard library

    [json.dumps] and [json.loads] belong to Python, not to the repository.
    They are modelled down to the text: [dumps] with its default arguments
    ([ensure_ascii], separators [", "] and [": "]), [loads] as the scanner of
    the reference implementation, both on the values without floats. *)

Module Json.
Local Open Scope char_scope.

(** What [json.loads] returns and [json.dumps] accepts. *)
#[local] Unset Elimination Schemes.
Inductive json : Type :=
| JNull
| JBool (b : bool)
| JInt (n : Z)
| JStr (s : string)
| JList (l : list json)
| JDict (d : list (string * json)).
#[local] Set Elimination Schemes.

Definition quote : ascii := "034".
Definition backslash : ascii := "092".

(** *** Encoder

    The functions that write text take the text that follows as their last
    argument. *)

Definition hex_digits : string := "0123456789abcdef".

Fixpoint index_of (c : ascii) (s : string) : option nat :=
  match s with
  | EmptyString => None
  | String a s' => if Ascii.eqb c a then Some O else option_map Datatypes.S (index_of c s')
  end.

Definition hex_digit (n : N) : ascii :=
  match String.get (N.to_nat n) hex_digits with
  | Some c => c
  | None => "0"
  end.

Definition hex_value (c : ascii) : option N :=
  match index_of c hex_digits with
  | Some n => Some (N.of_nat n)
  | None => option_map (fun n => N.of_nat (10 + n)) (index_of c "ABCDEF")
  end.

(** The characters [ensure_ascii] leaves as they are: space to tilde. *)
Definition printable (c : ascii) : bool :=
  let n := N_of_ascii c in ((32 <=? n) && (n <=? 126))%N.

(** One character of a string literal: the short escapes, the character
    itself, or [\u00xx]. *)
Definition escape_char (c : ascii) (k : string) : string :=
  if Ascii.eqb c quote then String backslash (String quote k)
  else if Ascii.eqb c backslash then String backslash (String backslash k)
  else if Ascii.eqb c "010" then String backslash (String "n" k)
  else if Ascii.eqb c "013" then String backslash (String "r" k)
  else if Ascii.eqb c "009" then String backslash (String "t" k)
  else if Ascii.eqb c "008" then String backslash (String "b" k)
  else if Ascii.eqb c "012" then String backslash (String "f" k)
  else if printable c then String c k
  else
    let n := N_of_ascii c in
    String backslash (String "u" (String "0" (String "0"
      (String (hex_digit (n / 16)) (String (hex_digit (n mod 16)) k))))).

Fixpoint escape (s : string) (k : string) : string :=
  match s with
  | EmptyString => k
  | String c s' => escape_char c (escape s' k)
  end.

Definition encode_str (s : string) (k : string) : string :=
  String quote (escape s (String quote k)).

(** [int.__repr__]: decimal digits, with a minus sign when negative. *)
Definition str_int (z : Z) : string := NilEmpty.string_of_int (Z.to_int z).

(** The items of a list or dict, with [", "] between them. *)
Section Separated.
Context {A : Type} (f : A -> string -> string).
Fixpoint sep_by (l : list A) (k : string) : string :=
  match l with
  | [] => k
  | [x] => f x k
  | x :: xs => f x (String "," (String " " (sep_by xs k)))
  end.
End Separated.

Fixpoint encode (v : json) (k : string) : string :=
  match v with
  | JNull => "null" +:+ k
  | JBool true => "true" +:+ k
  | JBool false => "false" +:+ k
  | JInt z => str_int z +:+ k
  | JStr s => encode_str s k
  | JList l => String "[" (sep_by encode l (String "]" k))
  | JDict d =>
      String "{"
        (sep_by (fun kv k' =>
                   let (key, val) := kv : string * json in
                   encode_str key (String ":" (String " " (encode val k'))))
                d (String "}" k))
  end.

Definition encode_member (kv : string * json) (k : string) : string :=
  let (key, val) := kv in encode_str key (String ":" (String " " (encode val k))).

Definition dumps (v : json) : string := encode v EmptyString.

(** *** Decoder

    A scanner returns what it read and the text left, or [None] where
    [loads] raises [JSONDecodeError] or meets a value outside the model (a
    float, a code point above 255). *)

Definition is_ws (c : ascii) : bool :=
  Ascii.eqb c " " || Ascii.eqb c "009" || Ascii.eqb c "010" || Ascii.eqb c "013".

Fixpoint skip_ws (s : string) : string :=
  match s with
  | String c s' => if is_ws c then skip_ws s' else s
  | EmptyString => s
  end.

(** The character after a backslash. *)
Definition unescape (e : ascii) : option ascii :=
  if Ascii.eqb e quote then Some quote
  else if Ascii.eqb e backslash then Some backslash
  else if Ascii.eqb e "/" then Some "/"
  else if Ascii.eqb e "b" then Some "008"
  else if Ascii.eqb e "f" then Some "012"
  else if Ascii.eqb e "n" then Some "010"
  else if Ascii.eqb e "r" then Some "013"
  else if Ascii.eqb e "t" then Some "009"
  else None.

(** The code point of [\uXXXX]. *)
Definition hex4 (h1 h2 h3 h4 : ascii) : option ascii :=
  match hex_value h1, hex_value h2, hex_value h3, hex_value h4 with
  | Some a, Some b, Some c, Some d =>
      let n := (((a * 16 + b) * 16 + c) * 16 + d)%N in
      if (n <? 256)%N then Some (ascii_of_N n) else None
  | _, _, _, _ => None
  end.

Definition push (c : ascii) (r : option (string * string)) : option (string * string) :=
  match r with
  | Some (s, rest) => Some (String c s, rest)
  | None => None
  end.

(** [py_scanstring] in strict mode, from after the opening quote. *)
Fixpoint scanstring (s : string) : option (string * string) :=
  match s with
  | EmptyString => None
  | String c s1 =>
      if Ascii.eqb c quote then Some (EmptyString, s1)
      else if Ascii.eqb c backslash then
        match s1 with
        | String e s2 =>
            if Ascii.eqb e "u" then
              match s2 with
              | String h1 (String h2 (String h3 (String h4 s3))) =>
                  match hex4 h1 h2 h3 h4 with
                  | Some c' => push c' (scanstring s3)
                  | None => None
                  end
              | _ => None
              end
            else
              match unescape e with
              | Some c' => push c' (scanstring s2)
              | None => None
              end
        | EmptyString => None
        end
      else if (N_of_ascii c <? 32)%N then None
      else push c (scanstring s1)
  end.

Definition digit_of (c : ascii) : option (Decimal.uint -> Decimal.uint) :=
  match index_of c "0123456789" with
  | Some n =>
      nth_error [Decimal.D0; Decimal.D1; Decimal.D2; Decimal.D3; Decimal.D4;
                 Decimal.D5; Decimal.D6; Decimal.D7; Decimal.D8; Decimal.D9] n
  | None => None
  end.

Fixpoint scan_digits (s : string) : Decimal.uint * string :=
  match s with
  | String c s' =>
      match digit_of c with
      | Some d => let (u, r) := scan_digits s' in (d u, r)
      | None => (Decimal.Nil, s)
      end
  | EmptyString => (Decimal.Nil, s)
  end.

(** The integer part of [NUMBER_RE]: a zero alone, or digits that do not
    start with zero. *)
Definition scan_intpart (s : string) : Decimal.uint * string :=
  match s with
  | String "0" r => (Decimal.D0 Decimal.Nil, r)
  | _ => scan_digits s
  end.

Definition starts_float_tail (s : string) : bool :=
  match s with
  | String c _ => Ascii.eqb c "." || Ascii.eqb c "e" || Ascii.eqb c "E"
  | EmptyString => false
  end.

(** A number without fraction or exponent; with one it is a float. *)
Definition scan_number (s : string) : option (Z * string) :=
  let (neg, s1) := match s with
                   | String "-" s' => (true, s')
                   | _ => (false, s)
                   end in
  let (u, r) := scan_intpart s1 in
  match u with
  | Decimal.Nil => None
  | _ => if starts_float_tail r then None
         else Some (Z.of_int (if neg then Decimal.Neg u else Decimal.Pos u), r)
  end.

(** [d[k] = v] and [d.get(k)] on a dict in insertion order; [dict(pairs)],
    where a later pair with the same key replaces the value of the earlier. *)
Fixpoint dict_set {V : Type} (k : string) (v : V) (d : list (string * V)) : list (string * V) :=
  match d with
  | [] => [(k, v)]
  | (k', v') :: d' => if String.eqb k k' then (k, v) :: d' else (k', v') :: dict_set k v d'
  end.

Fixpoint dict_get {V : Type} (k : string) (d : list (string * V)) : option V :=
  match d with
  | [] => None
  | (k', v') :: d' => if String.eqb k k' then Some v' else dict_get k d'
  end.

Definition dict_of_pairs {V : Type} (l : list (string * V)) : list (string * V) :=
  fold_left (fun d kv => dict_set (fst kv) (snd kv) d) l [].

Definition bind2 {A B C : Type} (o : option (A * B)) (f : A -> B -> option C) : option C :=
  match o with
  | Some (a, b) => f a b
  | None => None
  end.

(** The next character after white space, when it is [c]. *)
Definition expect (c : ascii) (s : string) : option string :=
  match skip_ws s with
  | String c' r => if Ascii.eqb c c' then Some r else None
  | EmptyString => None
  end.

(** [scan_once], [JSONArray] and [JSONObject]; every call takes one unit of
    fuel. *)
Fixpoint decode (fuel : nat) (s : string) : option (json * string) :=
  match fuel with
  | O => None
  | S fuel' =>
      match skip_ws s with
      | String "034" s1 => bind2 (scanstring s1) (fun x r => Some (JStr x, r))
      | String "{" s1 =>
          match expect "}" s1 with
          | Some r => Some (JDict [], r)
          | None => bind2 (decode_members fuel' s1) (fun l r => Some (JDict (dict_of_pairs l), r))
          end
      | String "[" s1 =>
          match expect "]" s1 with
          | Some r => Some (JList [], r)
          | None => bind2 (decode_items fuel' s1) (fun l r => Some (JList l, r))
          end
      | String "n" (String "u" (String "l" (String "l" r))) => Some (JNull, r)
      | String "t" (String "r" (String "u" (String "e" r))) => Some (JBool true, r)
      | String "f" (String "a" (String "l" (String "s" (String "e" r)))) => Some (JBool false, r)
      | s0 => bind2 (scan_number s0) (fun z r => Some (JInt z, r))
      end
  end
with decode_items (fuel : nat) (s : string) : option (list json * string) :=
  match fuel with
  | O => None
  | S fuel' =>
      bind2 (decode fuel' s) (fun v r =>
        match expect "," r with
        | Some r' => bind2 (decode_items fuel' r') (fun vs r2 => Some (v :: vs, r2))
        | None =>
            match expect "]" r with
            | Some r' => Some ([v], r')
            | None => None
            end
        end)
  end
with decode_members (fuel : nat) (s : string) : option (list (string * json) * string) :=
  match fuel with
  | O => None
  | S fuel' =>
      match expect quote s with
      | Some s1 =>
          bind2 (scanstring s1) (fun key r =>
            match expect ":" r with
            | Some r1 =>
                bind2 (decode fuel' r1) (fun v r2 =>
                  match expect "," r2 with
                  | Some r3 =>
                      bind2 (decode_members fuel' r3) (fun ms r4 => Some ((key, v) :: ms, r4))
                  | None =>
                      match expect "}" r2 with
                      | Some r3 => Some ([(key, v)], r3)
                      | None => None
                      end
                  end)
            | None => None
            end)
      | None => None
      end
  end.

(** A value Python can hold: the keys of every dict are distinct. *)
Fixpoint distinct (l : list string) : bool :=
  match l with
  | [] => true
  | x :: xs => negb (existsb (String.eqb x) xs) && distinct xs
  end.

Fixpoint valid (v : json) : bool :=
  match v with
  | JList l => forallb valid l
  | JDict d => distinct (map fst d) && forallb (fun kv => let (_, x) := kv : string * json in valid x) d
  | _ => true
  end.

(** A bound on the fuel a value takes. *)
Fixpoint json_size (v : json) : nat :=
  match v with
  | JList l => S (fold_right (fun x acc => S (json_size x) + acc) 0 l)
  | JDict d => S (fold_right (fun kv acc => let (_, x) := kv : string * json in S (json_size x) + acc) 0 d)
  | _ => 1
  end.

Definition items_size (l : list json) : nat :=
  fold_right (fun x acc => S (json_size x) + acc) 0 l.

Definition members_size (d : list (string * json)) : nat :=
  fold_right (fun kv acc => let (_, x) := kv : string * json in S (json_size x) + acc) 0 d.

Definition members_valid (d : list (string * json)) : bool :=
  forallb (fun kv => let (_, x) := kv : string * json in valid x) d.

(** Text that starts a value, and text that may follow one. *)
Definition value_start (s : string) : bool :=
  match s with
  | EmptyString => false
  | String c _ =>
      negb (is_ws c) && negb (Ascii.eqb c "]") && negb (Ascii.eqb c "}")
      && negb (Ascii.eqb c ",") && negb (Ascii.eqb c ":")
  end.

Definition delimited (s : string) : bool :=
  match s with
  | EmptyString => true
  | String c _ => Ascii.eqb c "," || Ascii.eqb c "]" || Ascii.eqb c "}"
  end.

(** [json.loads]: one value, then only white space. The length of the text
    bounds the depth of the scan. *)
Definition loads (s : string) : option json :=
  match decode (S (String.length s)) s with
  | Some (v, r) => match skip_ws r with
                   | EmptyString => Some v
                   | _ => None
                   end
  | None => None
  end.

(** Digits that start with a digit other than zero; text that does not go
    on with a digit; a sign before digits. *)
Definition leading (u : Decimal.uint) : bool :=
  match u with
  | Decimal.Nil | Decimal.D0 _ => false
  | _ => true
  end.

Definition no_digit (s : string) : bool :=
  match s with
  | EmptyString => true
  | String c _ => match digit_of c with Some _ => false | None => true end
  end.

Definition signed (neg : bool) (s : string) : string :=
  if neg then String "-" s else s.

End Json.

(** * message_schema.py *)

Module message_schema.
Import Json.

(** A Python [dict] with string keys, in insertion order. *)
Abbreviation dict := (list (string * json)).

Inductive MessageType : Type :=
  TASK_REQUEST | TASK_RESPONSE | STATUS_UPDATE | ERROR | HEARTBEAT.

Inductive AgentType : Type :=
  LOCAL_CLAUDE | LOCAL_OPENAI | CLOUD_GEMINI | ORCHESTRATOR.

Inductive TaskType : Type :=
  CODE_REVIEW | ARCHITECTURE_DESIGN | CONTENT_GENERATION | BRAINSTORMING
| DATA_ANALYSIS | WEB_RESEARCH | MULTI_AGENT_TASK.

Inductive Priority : Type := LOW | MEDIUM | HIGH.

(** The [.value] of each enumeration member. *)
Definition MessageType_value (t : MessageType) : string :=
  match t with
  | TASK_REQUEST => "task_request"
  | TASK_RESPONSE => "task_response"
  | STATUS_UPDATE => "status_update"
  | ERROR => "error"
  | HEARTBEAT => "heartbeat"
  end.

Definition AgentType_value (a : AgentType) : string :=
  match a with
  | LOCAL_CLAUDE => "local_claude"
  | LOCAL_OPENAI => "local_openai"
  | CLOUD_GEMINI => "cloud_gemini"
  | ORCHESTRATOR => "orchestrator"
  end.

Definition TaskType_value (t : TaskType) : string :=
  match t with
  | CODE_REVIEW => "code_review"
  | ARCHITECTURE_DESIGN => "architecture_design"
  | CONTENT_GENERATION => "content_generation"
  | BRAINSTORMING => "brainstorming"
  | DATA_ANALYSIS => "data_analysis"
  | WEB_RESEARCH => "web_research"
  | MULTI_AGENT_TASK => "multi_agent_task"
  end.

Definition Priority_value (p : Priority) : string :=
  match p with
  | LOW => "low"
  | MEDIUM => "medium"
  | HIGH => "high"
  end.

(** Lookup of a member by value, [Enum(value)]: the first member whose value
    equals the argument; [None] stands for the [ValueError] of a value that
    belongs to no member (a JSON value that is not a string never does). *)
Definition by_value {E : Type} (members : list E) (value : E -> string) (v : json) : option E :=
  match v with
  | JStr s => find (fun e => String.eqb (value e) s) members
  | _ => None
  end.

Definition MessageType_of : json -> option MessageType :=
  by_value [TASK_REQUEST; TASK_RESPONSE; STATUS_UPDATE; ERROR; HEARTBEAT] MessageType_value.

Definition AgentType_of : json -> option AgentType :=
  by_value [LOCAL_CLAUDE; LOCAL_OPENAI; CLOUD_GEMINI; ORCHESTRATOR] AgentType_value.

Definition TaskType_of : json -> option TaskType :=
  by_value [CODE_REVIEW; ARCHITECTURE_DESIGN; CONTENT_GENERATION; BRAINSTORMING;
            DATA_ANALYSIS; WEB_RESEARCH; MULTI_AGENT_TASK] TaskType_value.

Definition Priority_of : json -> option Priority :=
  by_value [LOW; MEDIUM; HIGH] Priority_value.

(** The dataclass [AgentMessage], fields typed as annotated. *)
Record AgentMessage : Type := {
  message_type : MessageType;
  source_agent : AgentType;
  target_agent : AgentType;
  payload : dict;
  task_type : option TaskType;
  message_id : string;
  timestamp : string;
  correlation_id : string;
  priority : Priority;
  retry_count : Z
}.

(** Python truth value of a decoded JSON value. *)
Definition truthy (v : json) : bool :=
  match v with
  | JNull => false
  | JBool b => b
  | JInt z => negb (z =? 0)%Z
  | JStr s => negb (String.eqb s EmptyString)
  | JList l => match l with [] => false | _ => true end
  | JDict d => match d with [] => false | _ => true end
  end.

(** [AgentMessage.to_json] *)
Definition to_json (self : AgentMessage) : string :=
  let data : dict :=
    [ ("message_id", JStr (message_id self));
      ("message_type", JStr (MessageType_value (message_type self)));
      ("source_agent", JStr (AgentType_value (source_agent self)));
      ("target_agent", JStr (AgentType_value (target_agent self)));
      ("task_type",
        match task_type self with
        | Some t => if truthy (JStr (TaskType_value t)) then JStr (TaskType_value t) else JNull
        | None => JNull
        end);
      ("payload", JDict (payload self));
      ("correlation_id", JStr (correlation_id self));
      ("priority", JStr (Priority_value (priority self)));
      ("timestamp", JStr (timestamp self));
      ("retry_count", JInt (retry_count self)) ] in
  dumps (JDict data).

(** [data[key]]: [None] for the [KeyError]. [data.get(key, default)]. *)
Definition getitem (data : dict) (key : string) : option json := dict_get key data.

Definition get (data : dict) (key : string) (default : json) : json :=
  match dict_get key data with
  | Some v => v
  | None => default
  end.

(** Views of a decoded value at the annotated type of the field it is stored
    in. The dataclass does not check its fields, so Python would store a value
    of any other type as it is; the typed record has no such message, and
    [from_json] gives no result there. *)
Definition as_str (v : json) : option string :=
  match v with JStr s => Some s | _ => None end.

Definition as_int (v : json) : option Z :=
  match v with JInt z => Some z | _ => None end.

Definition as_dict (v : json) : option dict :=
  match v with JDict d => Some d | _ => None end.

(** [AgentMessage.from_json]. The result is [None] when Python raises
    ([json.loads] fails, a required key is missing, an enumeration value is
    unknown) and when the decoded message lies outside the typed record. *)
Definition from_json (json_str : string) : option AgentMessage :=
  data ← loads json_str ≫= as_dict;
  id ← getitem data "message_id" ≫= as_str;
  mt ← getitem data "message_type" ≫= MessageType_of;
  src ← getitem data "source_agent" ≫= AgentType_of;
  tgt ← getitem data "target_agent" ≫= AgentType_of;
  kind ← (if truthy (get data "task_type" JNull)
          then Some <$> (getitem data "task_type" ≫= TaskType_of)
          else Some None);
  pl ← getitem data "payload" ≫= as_dict;
  cid ← as_str (get data "correlation_id" (JStr EmptyString));
  prio ← Priority_of (get data "priority" (JStr "medium"));
  ts ← as_str (get data "timestamp" (JStr EmptyString));
  rc ← as_int (get data "retry_count" (JInt 0));
  Some {| message_type := mt; source_agent := src; target_agent := tgt;
          payload := pl; task_type := kind; message_id := id; timestamp := ts;
          correlation_id := cid; priority := prio; retry_count := rc |}.

(** A message whose payload is JSON-representable: a dict has distinct keys at
    every level (the other fields are so by their types). *)
Definition valid_message (m : AgentMessage) : bool := valid (JDict (payload m)).

Definition set_correlation_id (c : string) (m : AgentMessage) : AgentMessage :=
  {| message_type := message_type m; source_agent := source_agent m;
     target_agent := target_agent m; payload := payload m;
     task_type := task_type m; message_id := message_id m;
     timestamp := timestamp m; correlation_id := c;
     priority := priority m; retry_count := retry_count m |}.

End message_schema.

(** * The interpreter and the broker

    What the code observes of the world outside it: the identifiers drawn by
    [uuid.uuid4], the readings of [datetime.utcnow], the outcome of each call
    into the pika client, and the time slept. Printing is left out. *)

Module runtime.
Import Json message_schema.

(** An exception, by what the code asks of it: whether a handler
    [except AMQPConnectionError] matches it, and [str(e)]. Every exception of
    the model is an instance of [Exception]; the signals that are not
    ([KeyboardInterrupt], [SystemExit]) are outside it. *)
Record exn : Type := {
  is_AMQPConnectionError : bool;
  str : string
}.

Inductive outcome (A : Type) : Type :=
| Ok (a : A)
| Raise (e : exn).
Arguments Ok {A} a.
Arguments Raise {A} e.

Inductive call : Type :=
| BlockingConnection (host : string) (port : Z)
| connection_channel
| queue_declare (queue : string) (durable passive : bool)
| exchange_declare (exchange exchange_type : string) (durable : bool)
| basic_publish (exchange routing_key body correlation_id : string) (priority : Z).

(** What a call into the client gives back: it returns (for a passive
    [queue_declare], with the counts of [result.method]) or it raises. *)
Inductive reply : Type :=
| Returns (message_count consumer_count : Z)
| Raises (e : exn).

Inductive event : Type :=
| Pika (c : call) (r : reply)
| Sleep (seconds : Z)
| Invoke (handler : string) (message : AgentMessage).

Record World : Type := {
  uuid4 : nat -> string;
  utcnow : nat -> string;
  pika : nat -> reply;
  uuid_calls : nat;
  clock_calls : nat;
  pika_calls : nat;
  trace : list event
}.

(** A computation on an object of type [S]: it reads and writes the world and
    the object, and returns or raises. *)
Definition Py (S A : Type) : Type := World -> S -> World * S * outcome A.

Definition ret {S A : Type} (a : A) : Py S A := fun w s => (w, s, Ok a).

Definition raise {S A : Type} (e : exn) : Py S A := fun w s => (w, s, Raise e).

Definition bind {S A B : Type} (c : Py S A) (k : A -> Py S B) : Py S B :=
  fun w s =>
    match c w s with
    | (w', s', Ok a) => k a w' s'
    | (w', s', Raise e) => (w', s', Raise e)
    end.

(** [try: body / except <class> as e: handler e]; an exception the clause
    does not match goes on to the caller. *)
Definition try_except {S A : Type} (body : Py S A) (matches : exn -> bool)
    (handler : exn -> Py S A) : Py S A :=
  fun w s =>
    match body w s with
    | (w', s', Ok a) => (w', s', Ok a)
    | (w', s', Raise e) => if matches e then handler e w' s' else (w', s', Raise e)
    end.

#[global] Instance Py_ret {S : Type} : MRet (Py S) := fun A a => ret a.
#[global] Instance Py_bind {S : Type} : MBind (Py S) := fun A B k c => bind c k.

Definition Exception (e : exn) : bool := true.

Definition self {S : Type} : Py S S := fun w s => (w, s, Ok s).

Definition modify {S : Type} (f : S -> S) : Py S unit := fun w s => (w, f s, Ok tt).

(** Run a computation of a component object inside its owner. *)
Definition within {S T A : Type} (get : T -> S) (set : S -> T -> T) (c : Py S A) : Py T A :=
  fun w t =>
    match c w (get t) with
    | (w', s', r) => (w', set s' t, r)
    end.

Definition log (ev : event) (w : World) : World :=
  {| uuid4 := uuid4 w; utcnow := utcnow w; pika := pika w;
     uuid_calls := uuid_calls w; clock_calls := clock_calls w;
     pika_calls := pika_calls w; trace := trace w ++ [ev] |}.

Definition drawn (w : World) : World :=
  {| uuid4 := uuid4 w; utcnow := utcnow w; pika := pika w;
     uuid_calls := Datatypes.S (uuid_calls w); clock_calls := clock_calls w;
     pika_calls := pika_calls w; trace := trace w |}.

Definition read (w : World) : World :=
  {| uuid4 := uuid4 w; utcnow := utcnow w; pika := pika w;
     uuid_calls := uuid_calls w; clock_calls := Datatypes.S (clock_calls w);
     pika_calls := pika_calls w; trace := trace w |}.

Definition answered (w : World) : World :=
  {| uuid4 := uuid4 w; utcnow := utcnow w; pika := pika w;
     uuid_calls := uuid_calls w; clock_calls := clock_calls w;
     pika_calls := Datatypes.S (pika_calls w); trace := trace w |}.

(** [str(uuid.uuid4())] *)
Definition new_uuid {S : Type} : Py S string :=
  fun w s => (drawn w, s, Ok (uuid4 w (uuid_calls w))).

(** [datetime.utcnow().isoformat()] *)
Definition now {S : Type} : Py S string :=
  fun w s => (read w, s, Ok (utcnow w (clock_calls w))).

(** [time.sleep(seconds)]; a negative length is refused with a
    [ValueError]. Lengths past the range of the interpreter's clock are
    outside the model. *)
Definition sleep {S : Type} (seconds : Z) : Py S unit :=
  fun w s =>
    if (seconds <? 0)%Z
    then (w, s, Raise {| is_AMQPConnectionError := false;
                         str := "sleep length must be non-negative" |})
    else (log (Sleep seconds) w, s, Ok tt).

(** A call into the pika client: the world answers it. *)
Definition client {S : Type} (c : call) : Py S (Z * Z) :=
  fun w s =>
    let r := pika w (pika_calls w) in
    let w' := log (Pika c r) (answered w) in
    match r with
    | Returns m n => (w', s, Ok (m, n))
    | Raises e => (w', s, Raise e)
    end.

(** A callable registered by a caller: its name, and whether a call on a
    message returns or raises. It does not reach into the orchestrator. *)
Record Callable : Type := {
  handler_name : string;
  handler_run : AgentMessage -> outcome unit
}.

Definition invoke {S : Type} (h : Callable) (message : AgentMessage) : Py S unit :=
  fun w s => (log (Invoke (handler_name h) message) w, s, handler_run h message).

End runtime.

(** * message_schema.py, continued: messages made at run time *)

Module messages.
Import Json message_schema runtime.

(** The dataclass constructor: [message_id] and [timestamp] come from their
    default factories, in the order of the fields. *)
Definition new_AgentMessage {S : Type} (mt : MessageType) (src tgt : AgentType)
    (pl : dict) (kind : option TaskType) (cid : string) (prio : Priority) : Py S AgentMessage :=
  id ← new_uuid;
  t ← now;
  ret {| message_type := mt; source_agent := src; target_agent := tgt;
         payload := pl; task_type := kind; message_id := id;
         timestamp := t +:+ "Z"; correlation_id := cid; priority := prio;
         retry_count := 0 |}.

(** [AgentMessage.create_response] *)
Definition create_response {S : Type} (self : AgentMessage) (result : dict)
    (success : bool) : Py S AgentMessage :=
  new_AgentMessage
    (if success then TASK_RESPONSE else ERROR)
    (target_agent self)
    (source_agent self)
    [("success", JBool success); ("result", JDict result)]
    (task_type self)
    (if negb (String.eqb (correlation_id self) EmptyString)
     then correlation_id self else message_id self)
    (priority self).

End messages.

(** * message_queue.py *)

Module message_queue.
Import Json message_schema runtime messages.

(** The dataclass [QueueConfig]. *)
Record QueueConfig : Type := {
  host : string;
  port : Z;
  username : string;
  password : string;
  virtual_host : string
}.

(** The queue of each agent, in the order of the dict literal. *)
Definition AGENT_QUEUES : list (AgentType * string) :=
  [ (LOCAL_CLAUDE, "agent.local.claude");
    (LOCAL_OPENAI, "agent.local.openai");
    (CLOUD_GEMINI, "agent.cloud.gemini");
    (ORCHESTRATOR, "agent.orchestrator") ].

Definition BROADCAST_EXCHANGE : string := "agent.broadcast".

(** Members of the enumeration are equal when their values are. *)
Definition AgentType_eqb (a b : AgentType) : bool :=
  String.eqb (AgentType_value a) (AgentType_value b).

(** [AGENT_QUEUES.get(agent)] *)
Definition queue_of (agent : AgentType) : option string :=
  snd <$> find (fun kv => AgentType_eqb agent (fst kv)) AGENT_QUEUES.

(** The connection and the channel are handles of the client; [None] is
    Python's [None]. *)
Record MessageQueue : Type := {
  config : QueueConfig;
  connection : option nat;
  channel : option nat
}.

Definition set_connection (c : option nat) (q : MessageQueue) : MessageQueue :=
  {| config := config q; connection := c; channel := channel q |}.

Definition set_channel (c : option nat) (q : MessageQueue) : MessageQueue :=
  {| config := config q; connection := connection q; channel := c |}.

(** [for x in l: body x] *)
Fixpoint for_each {S A : Type} (l : list A) (body : A -> Py S unit) : Py S unit :=
  match l with
  | [] => ret tt
  | x :: xs => body x ;; for_each xs body
  end.

(** The number of calls made into the client so far. *)
Definition calls_so_far {S : Type} : Py S nat := fun w s => (w, s, Ok (pika_calls w)).

(** The body of the [try] in [connect], up to [return True]. The handles are
    numbered by the call that made them. *)
Definition connect_once : Py MessageQueue bool :=
  q ← self;
  w ← calls_so_far;
  client (BlockingConnection (host (config q)) (port (config q)));;
  modify (set_connection (Some w));;
  client connection_channel;;
  modify (set_channel (Some (Datatypes.S w)));;
  for_each (map snd AGENT_QUEUES)
    (fun queue_name => client (queue_declare queue_name true false) ;; ret tt);;
  client (exchange_declare BROADCAST_EXCHANGE "fanout" true);;
  ret true.

(** [for attempt in range(max_retries)], from [attempt] on. *)
Fixpoint connect_from (attempts : list nat) (max_retries retry_delay : Z) : Py MessageQueue bool :=
  match attempts with
  | [] => ret false
  | attempt :: rest =>
      returned ←
        try_except
          (b ← connect_once; ret (Some b))
          is_AMQPConnectionError
          (fun e =>
             (if (Z.of_nat attempt <? max_retries - 1)%Z
              then sleep retry_delay else ret tt);;
             ret None);
      match returned with
      | Some b => ret b
      | None => connect_from rest max_retries retry_delay
      end
  end.

(** [MessageQueue.connect]; a negative [max_retries] gives an empty range. *)
Definition connect (max_retries retry_delay : Z) : Py MessageQueue bool :=
  connect_from (seq 0 (Z.to_nat max_retries)) max_retries retry_delay.

(** [{"low": 1, "medium": 5, "high": 9}.get(priority.value, 5)] *)
Definition priority_hint (p : Priority) : Z :=
  match dict_get (Priority_value p) [("low", 1%Z); ("medium", 5%Z); ("high", 9%Z)] with
  | Some n => n
  | None => 5%Z
  end.

(** [MessageQueue.send_message] *)
Definition send_message (message : AgentMessage) : Py MessageQueue bool :=
  q ← self;
  match channel q with
  | None => ret false
  | Some _ =>
      match queue_of (target_agent message) with
      | None => ret false
      | Some queue_name =>
          if String.eqb queue_name EmptyString then ret false
          else
            try_except
              (client (basic_publish EmptyString queue_name (to_json message)
                         (correlation_id message) (priority_hint (priority message)));;
               ret true)
              Exception
              (fun e => ret false)
      end
  end.

(** [{"messages": ..., "consumers": ...}] *)
Definition stats_entry (messages consumers : Z) : json :=
  JDict [("messages", JInt messages); ("consumers", JInt consumers)].

(** The loop of [get_queue_stats] over [AGENT_QUEUES.items()]. *)
Fixpoint collect_stats (queues : list (AgentType * string)) (stats : dict) : Py MessageQueue dict :=
  match queues with
  | [] => ret stats
  | (agent, queue_name) :: rest =>
      entry ←
        try_except
          (result ← client (queue_declare queue_name false true);
           ret (stats_entry (fst result) (snd result)))
          Exception
          (fun e => ret (stats_entry 0 0));
      collect_stats rest (dict_set (AgentType_value agent) entry stats)
  end.

(** [MessageQueue.get_queue_stats] *)
Definition get_queue_stats : Py MessageQueue dict :=
  q ← self;
  match channel q with
  | None => ret []
  | Some _ => collect_stats AGENT_QUEUES []
  end.

End message_queue.

(** * agents.py *)

Module agents.
Import Json message_schema runtime messages.

(** An agent: its identity and its [process_task], which returns a result or
    raises. *)
Record BaseAgent : Type := {
  agent_type : AgentType;
  process_task : option TaskType -> dict -> outcome dict
}.

Definition call_process_task {S : Type} (agent : BaseAgent) (kind : option TaskType)
    (pl : dict) : Py S dict :=
  fun w s => (w, s, process_task agent kind pl).

(** [BaseAgent.handle_message] *)
Definition handle_message {S : Type} (agent : BaseAgent) (message : AgentMessage)
  : Py S (option AgentMessage) :=
  match message_type message with
  | TASK_REQUEST =>
      try_except
        (result ← call_process_task agent (task_type message) (payload message);
         response ← create_response message result true;
         ret (Some response))
        Exception
        (fun e =>
           response ← create_response message [("error", JStr (str e))] false;
           ret (Some response))
  | HEARTBEAT =>
      response ←
        new_AgentMessage STATUS_UPDATE (agent_type agent) (source_agent message)
          [("status", JStr "alive"); ("agent", JStr (AgentType_value (agent_type agent)))]
          None EmptyString MEDIUM;
      ret (Some response)
  | _ => ret None
  end.

End agents.

(** * orchestrator.py *)

Module orchestrator.
Import Json message_schema runtime messages message_queue.

(** The dataclass [TaskStatus]; [result] holds whatever the payload held. *)
Record TaskStatus : Type := {
  task_id : string;
  task_type : TaskType;
  target_agent : AgentType;
  status : string;
  submitted_at : string;
  completed_at : string;
  result : json
}.

Definition set_status (v : string) (t : TaskStatus) : TaskStatus :=
  {| task_id := task_id t; task_type := task_type t; target_agent := target_agent t;
     status := v; submitted_at := submitted_at t; completed_at := completed_at t;
     result := result t |}.

Definition set_result (v : json) (t : TaskStatus) : TaskStatus :=
  {| task_id := task_id t; task_type := task_type t; target_agent := target_agent t;
     status := status t; submitted_at := submitted_at t; completed_at := completed_at t;
     result := v |}.

Definition set_completed_at (v : string) (t : TaskStatus) : TaskStatus :=
  {| task_id := task_id t; task_type := task_type t; target_agent := target_agent t;
     status := status t; submitted_at := submitted_at t; completed_at := v;
     result := result t |}.

(** The orchestrator. A [TaskStatus] is an object: [objects] holds the ones
    made so far and a reference is an index into it, so that the table and a
    local variable can name the same object. The listener thread and its flag
    are left out. *)
Record Orchestrator : Type := {
  mq : MessageQueue;
  objects : list TaskStatus;
  tasks : gmap string nat;
  response_handlers : gmap string Callable
}.

Definition set_mq (q : MessageQueue) (o : Orchestrator) : Orchestrator :=
  {| mq := q; objects := objects o; tasks := tasks o;
     response_handlers := response_handlers o |}.

Definition set_objects (h : list TaskStatus) (o : Orchestrator) : Orchestrator :=
  {| mq := mq o; objects := h; tasks := tasks o;
     response_handlers := response_handlers o |}.

Definition set_tasks (t : gmap string nat) (o : Orchestrator) : Orchestrator :=
  {| mq := mq o; objects := objects o; tasks := t;
     response_handlers := response_handlers o |}.

Definition set_response_handlers (h : gmap string Callable) (o : Orchestrator) : Orchestrator :=
  {| mq := mq o; objects := objects o; tasks := tasks o; response_handlers := h |}.

(** [self.mq.<method>(...)] *)
Definition self_mq {A : Type} (c : Py MessageQueue A) : Py Orchestrator A :=
  within mq set_mq c.

(** A new object, and its reference. *)
Definition new_object (t : TaskStatus) : Py Orchestrator nat :=
  o ← self;
  modify (set_objects (objects o ++ [t]));;
  ret (length (objects o)).

(** [task.<field> = v] on the object a reference names. *)
Definition setattr (task : nat) (f : TaskStatus -> TaskStatus) : Py Orchestrator unit :=
  modify (fun o => set_objects (alter f task (objects o)) o).

(** [TaskStatus(task_id=..., task_type=..., target_agent=...)], with
    [__post_init__]. *)
Definition new_TaskStatus (id : string) (kind : TaskType) (target : AgentType) : Py Orchestrator nat :=
  let submitted : string := EmptyString in
  submitted' ← (if String.eqb submitted EmptyString then now else ret submitted);
  new_object {| task_id := id; task_type := kind; target_agent := target;
                status := "pending"; submitted_at := submitted';
                completed_at := EmptyString; result := JDict [] |}.

(** [Orchestrator.connect], with the defaults of [MessageQueue.connect]. *)
Definition connect : Py Orchestrator bool := self_mq (message_queue.connect 5 5).

(** [Orchestrator._handle_response] *)
Definition _handle_response (message : AgentMessage) : Py Orchestrator unit :=
  let correlation_id := correlation_id message in
  o ← self;
  match tasks o !! correlation_id with
  | Some task =>
      match message_type message with
      | TASK_RESPONSE =>
          setattr task (set_status "completed");;
          setattr task (set_result (get (payload message) "result" (JDict (payload message))))
      | ERROR =>
          setattr task (set_status "failed");;
          setattr task (set_result (JDict (payload message)))
      | _ => ret tt
      end;;
      t ← now;
      setattr task (set_completed_at t)
  | None => ret tt
  end;;
  o ← self;
  match response_handlers o !! correlation_id with
  | Some handler =>
      modify (set_response_handlers (delete correlation_id (response_handlers o)));;
      invoke handler message
  | None => ret tt
  end.

(** [submit_task] up to the send: the request, its record in the table, the
    callback. *)
Definition track_task (target : AgentType) (kind : TaskType) (pl : dict)
    (prio : Priority) (on_complete : option Callable) : Py Orchestrator (AgentMessage * nat) :=
  message ← new_AgentMessage TASK_REQUEST ORCHESTRATOR target pl (Some kind) EmptyString prio;
  task ← new_TaskStatus (message_id message) kind target;
  modify (fun o => set_tasks (<[message_id message := task]> (tasks o)) o);;
  let message := set_correlation_id (message_id message) message in
  match on_complete with
  | Some handler =>
      modify (fun o => set_response_handlers
                         (<[message_id message := handler]> (response_handlers o)) o)
  | None => ret tt
  end;;
  ret (message, task).

(** [Orchestrator.submit_task] *)
Definition submit_task (target : AgentType) (kind : TaskType) (pl : dict)
    (prio : Priority) (on_complete : option Callable) : Py Orchestrator string :=
  tracked ← track_task target kind pl prio on_complete;
  let (message, task) := tracked : AgentMessage * nat in
  sent ← self_mq (send_message message);
  if sent : bool then
    setattr task (set_status "processing");;
    ret (message_id message)
  else
    setattr task (set_status "failed");;
    ret EmptyString.

(** [get_task_status], [get_all_tasks] (the references, in no particular
    order) and [clear_completed_tasks]. *)
Definition get_task_status (id : string) : Py Orchestrator (option nat) :=
  o ← self; ret (tasks o !! id).

Definition get_all_tasks : Py Orchestrator (list nat) :=
  o ← self; ret ((map_to_list (tasks o)).*2).

Definition terminal (s : string) : bool :=
  existsb (String.eqb s) ["completed"; "failed"].

(** [v.status not in ["completed", "failed"]] for the object behind [v]. *)
Definition live (o : Orchestrator) (v : nat) : bool :=
  match objects o !! v with
  | Some t => negb (terminal (status t))
  | None => true
  end.

Definition clear_completed_tasks : Py Orchestrator unit :=
  modify (fun o => set_tasks (filter (fun kv => live o kv.2 = true) (tasks o)) o).

(** The loop of [_listen_for_responses] over the messages it receives: an
    exception of [_handle_response] is caught, the listener sleeps a second
    and goes on with the next message. *)
Fixpoint deliver (messages : list AgentMessage) : Py Orchestrator unit :=
  match messages with
  | [] => ret tt
  | message :: rest =>
      try_except (_handle_response message) Exception (fun e => sleep 1);;
      deliver rest
  end.


End orchestrator.

(** * message_queue.py and orchestrator.py over any table of mailboxes

    [AGENT_QUEUES] is a module-level dict with a queue for every member of
    [AgentType], so that [send_message] as the source has it never meets a
    target without a mailbox. The two functions below are [send_message] and
    [submit_task] with the table as a parameter, read as [queues.get(target)];
    those of the source are these at [AGENT_QUEUES]. *)

Module mailboxes.
Import Json message_schema runtime messages message_queue orchestrator.




End mailboxes.

(** * Vocabulary of the statements *)

Module observations.
Import Json message_schema runtime messages message_queue agents orchestrator.

(** The connection attempts and the sleeps of a trace. *)
Fixpoint attempts_in (tr : list event) : nat :=
  match tr with
  | [] => 0
  | Pika (BlockingConnection _ _) _ :: tr' => Datatypes.S (attempts_in tr')
  | _ :: tr' => attempts_in tr'
  end.





(** The place of an agent in [AGENT_QUEUES]. *)
Definition position (a : AgentType) : nat :=
  match a with
  | LOCAL_CLAUDE => 0
  | LOCAL_OPENAI => 1
  | CLOUD_GEMINI => 2
  | ORCHESTRATOR => 3
  end.

(** The entry [get_queue_stats] makes from the answer to an inspection. *)
Definition inspected (r : reply) : json :=
  match r with
  | Returns m n => stats_entry m n
  | Raises _ => stats_entry 0 0
  end.

(** Whether a send from this state goes through: there is a channel and the
    next call into the client returns. *)
Definition send_ok (w : World) (q : MessageQueue) : bool :=
  match channel q, pika w (pika_calls w) with
  | Some _, Returns _ _ => true
  | _, _ => false
  end.

(** The invocations, in a trace, on messages with a given correlation id. *)
Definition invoked_for (c : string) (ev : event) : bool :=
  match ev with
  | Invoke _ m => String.eqb (correlation_id m) c
  | _ => false
  end.

Definition calls_for (c : string) (tr : list event) : list event :=
  List.filter (invoked_for c) tr.

Definition carries (c : string) (m : AgentMessage) : bool :=
  String.eqb (correlation_id m) c.

(** The request [submit_task] makes, its record, and the state after the
    send. *)
Definition request_of (target : AgentType) (kind : TaskType) (pl : dict)
    (prio : Priority) (w : World) : AgentMessage :=
  {| message_type := TASK_REQUEST; source_agent := ORCHESTRATOR;
     message_schema.target_agent := target; payload := pl;
     message_schema.task_type := Some kind;
     message_id := uuid4 w (uuid_calls w);
     timestamp := utcnow w (clock_calls w) +:+ "Z";
     correlation_id := uuid4 w (uuid_calls w);
     priority := prio; retry_count := 0 |}.

Definition record_of (target : AgentType) (kind : TaskType) (w : World) : TaskStatus :=
  {| task_id := uuid4 w (uuid_calls w); task_type := kind; target_agent := target;
     status := "pending"; submitted_at := utcnow w (Datatypes.S (clock_calls w));
     completed_at := EmptyString; result := JDict [] |}.

Definition tracked (target : AgentType) (kind : TaskType) (on_complete : option Callable)
    (w : World) (o : Orchestrator) : Orchestrator :=
  {| mq := mq o;
     objects := objects o ++ [record_of target kind w];
     tasks := <[uuid4 w (uuid_calls w) := length (objects o)]> (tasks o);
     response_handlers :=
       match on_complete with
       | Some handler => <[uuid4 w (uuid_calls w) := handler]> (response_handlers o)
       | None => response_handlers o
       end |}.

(** What a handled message makes of the task it names, and of the
    orchestrator. *)
Definition resolved (m : AgentMessage) (t : TaskStatus) : TaskStatus :=
  match message_type m with
  | TASK_RESPONSE =>
      set_result (get (payload m) "result" (JDict (payload m))) (set_status "completed" t)
  | ERROR => set_result (JDict (payload m)) (set_status "failed" t)
  | _ => t
  end.

Definition handled (m : AgentMessage) (w : World) (o : Orchestrator) : Orchestrator :=
  {| mq := mq o;
     objects :=
       match tasks o !! correlation_id m with
       | Some task =>
           alter (fun t => set_completed_at (utcnow w (clock_calls w)) (resolved m t))
             task (objects o)
       | None => objects o
       end;
     tasks := tasks o;
     response_handlers := delete (correlation_id m) (response_handlers o) |}.

End observations.

(** * Sample values *)

Module samples.
Import Json message_schema runtime messages message_queue agents orchestrator.

Definition sample_request : AgentMessage :=
  {| message_type := TASK_REQUEST; source_agent := ORCHESTRATOR;
     message_schema.target_agent := LOCAL_CLAUDE;
     payload := [("code", JStr "print('hello')"); ("lines", JList [JInt 1; JInt (-2)]);
                 ("options", JDict [("strict", JBool true); ("hint", JNull)])];
     message_schema.task_type := Some CODE_REVIEW; message_id := "550e8400";
     timestamp := "2024-01-15T10:30:00Z"; correlation_id := "job-123";
     priority := MEDIUM; retry_count := 0 |}.

Definition numbered (prefix : string) (n : nat) : string :=
  prefix +:+ NilEmpty.string_of_uint (Nat.to_uint n).

Definition refused : exn := {| is_AMQPConnectionError := true; str := "connection refused" |}.


Definition world_of (script : nat -> reply) : World :=
  {| uuid4 := numbered "task-"; utcnow := numbered "2024-01-15T10:30:0";
     pika := script; uuid_calls := 0; clock_calls := 0; pika_calls := 0; trace := [] |}.

(** A broker that answers every call, one that refuses every connection, and
    one whose first queue declaration fails on the channel. *)
Definition quiet_world : World := world_of (fun _ => Returns 0 0).

Definition refusing_world : World := world_of (fun _ => Raises refused).


Definition local_config : QueueConfig :=
  {| host := "localhost"; port := 5672; username := "guest"; password := "guest";
     virtual_host := "/" |}.

Definition offline : MessageQueue :=
  {| config := local_config; connection := None; channel := None |}.

Definition online : MessageQueue :=
  {| config := local_config; connection := Some 0; channel := Some 1 |}.

Definition failing_agent : BaseAgent :=
  {| agent_type := LOCAL_CLAUDE;
     process_task := fun _ _ => Raise {| is_AMQPConnectionError := false; str := "rate limited" |} |}.

Definition notify : Callable :=
  {| handler_name := "notify"; handler_run := fun _ => Ok tt |}.

Definition pending_review : TaskStatus :=
  {| task_id := "task-0"; task_type := CODE_REVIEW; target_agent := LOCAL_CLAUDE;
     status := "processing"; submitted_at := "2024-01-15T10:30:00";
     completed_at := EmptyString; result := JDict [] |}.

(** An orchestrator waiting for the answer to one task, with a callback. *)
Definition waiting : Orchestrator :=
  {| mq := online; objects := [pending_review];
     tasks := {["task-0" := 0]}; response_handlers := {["task-0" := notify]} |}.

Definition disconnected : Orchestrator :=
  {| mq := offline; objects := []; tasks := ∅; response_handlers := ∅ |}.

Definition answer_of (kind : MessageType) (cid : string) : AgentMessage :=
  {| message_type := kind; source_agent := LOCAL_CLAUDE;
     message_schema.target_agent := ORCHESTRATOR;
     payload := [("success", JBool true); ("result", JDict [("review", JStr "ok")])];
     message_schema.task_type := Some CODE_REVIEW; message_id := "reply-1";
     timestamp := "2024-01-15T10:31:00Z"; correlation_id := cid;
     priority := MEDIUM; retry_count := 0 |}.

End samples.

(** * agents.py, continued: delegation *)

Module delegation.
Import Json message_schema runtime messages message_queue agents.

(** [BaseAgent.send_task], on the agent's [mq] attribute, which may be
    [None]. *)
Definition send_task (agent : BaseAgent) (target : AgentType) (kind : TaskType)
    (pl : dict) (cid : string) : Py (option MessageQueue) bool :=
  mq ← self;
  match mq with
  | None => ret false
  | Some q =>
      message ← new_AgentMessage TASK_REQUEST (agent_type agent) target pl (Some kind)
                  cid MEDIUM;
      within (fun _ => q) (fun q' _ => Some q') (send_message message)
  end.

End delegation.

(** * orchestrator.py, continued: health and workflows *)

Module supervision.
Import Json message_schema runtime messages message_queue orchestrator.

(** An exception of a class other than [AMQPConnectionError], with its
    text. *)
Definition error (text : string) : exn :=
  {| is_AMQPConnectionError := false; str := text |}.

(** [type(v).__name__] of a decoded value. *)
Definition type_name (v : json) : string :=
  match v with
  | JNull => "NoneType"
  | JBool _ => "bool"
  | JInt _ => "int"
  | JStr _ => "str"
  | JList _ => "list"
  | JDict _ => "dict"
  end.

(** [info.get("consumers", 0) > 0]: [info] has to be a dict and the count a
    number, or Python raises. *)
Definition has_consumers {S : Type} (info : json) : Py S bool :=
  match info with
  | JDict d =>
      match get d "consumers" (JInt 0) with
      | JInt n => ret (0 <? n)%Z
      | JBool b => ret b
      | v => raise (error ("'>' not supported between instances of '"
                           +:+ type_name v +:+ "' and 'int'"))
      end
  | v => raise (error ("'" +:+ type_name v +:+ "' object has no attribute 'get'"))
  end.

(** The loop of [check_agent_health] over [stats.items()]. *)
Fixpoint grade {S : Type} (items : dict) (health : list (string * string))
  : Py S (list (string * string)) :=
  match items with
  | [] => ret health
  | (agent, info) :: rest =>
      positive ← has_consumers info;
      grade rest (dict_set agent (if positive : bool then "healthy" else "no_consumers") health)
  end.

(** [Orchestrator.check_agent_health] *)
Definition check_agent_health : Py Orchestrator (list (string * string)) :=
  for_each [LOCAL_CLAUDE; LOCAL_OPENAI; CLOUD_GEMINI]
    (fun agent_type =>
       message ← new_AgentMessage HEARTBEAT ORCHESTRATOR agent_type [] None EmptyString MEDIUM;
       self_mq (send_message message);;
       ret tt);;
  stats ← self_mq get_queue_stats;
  grade stats [].

(** [str(KeyError(key))], and the text of the [ValueError] of an enumeration;
    the quoting is that of [repr] for a name without quotes or escapes. *)
Definition KeyError (key : string) : exn := error ("'" +:+ key +:+ "'").

Definition ValueError (value enum : string) : exn :=
  error ("'" +:+ value +:+ "' is not a valid " +:+ enum).

(** What [Enum(first[key]) if isinstance(first[key], str) else first[key]]
    evaluates to. A string goes through the lookup by value (a member of a
    [str] enumeration is a [str] too, so both kinds of entry do): it gives the
    member, or a [ValueError]. An absent key gives a [KeyError]. An entry
    that is not a string is handed on as it is. *)
Inductive entry (E : Type) : Type :=
| member (e : E)
| other (v : json)
| fails (e : exn).
Arguments member {E} e.
Arguments other {E} v.
Arguments fails {E} e.

Definition step_entry {E : Type} (lookup : json -> option E) (enum : string)
    (first : dict) (key : string) : entry E :=
  match getitem first key with
  | None => fails (KeyError key)
  | Some (JStr s) =>
      match lookup (JStr s) with
      | Some e => member e
      | None => fails (ValueError s enum)
      end
  | Some v => other v
  end.

(** [Orchestrator.submit_workflow]: the steps are dicts, and the arguments of
    [submit_task] are evaluated from left to right, the target before the
    task type, so that an exception of either comes before the call.
    [submit_task] is typed: the call Python makes with an entry that is not a
    string, passing the value unchecked, has no counterpart here and is left
    out ([None]). *)
Definition submit_workflow (workflow : list dict) (initial_input : dict)
  : option (Py Orchestrator string) :=
  match workflow with
  | [] => Some (ret EmptyString)
  | first :: _ =>
      match step_entry AgentType_of "AgentType" first "agent" with
      | fails e => Some (raise e)
      | target =>
          match step_entry TaskType_of "TaskType" first "task" with
          | fails e => Some (raise e)
          | kind =>
              match target, kind with
              | member target, member kind =>
                  Some (submit_task target kind
                          [("input", JDict initial_input);
                           ("workflow", JList (map JDict workflow));
                           ("step", JInt 0)]
                          MEDIUM None)
              | _, _ => None
              end
          end
      end
  end.

End supervision.

(** * Vocabulary of the further statements *)

Module wire.
Import Json message_schema.

(** The dict [to_json] hands to [json.dumps]. *)
Definition wire_fields (m : AgentMessage) : dict :=
  [ ("message_id", JStr (message_id m));
    ("message_type", JStr (MessageType_value (message_type m)));
    ("source_agent", JStr (AgentType_value (source_agent m)));
    ("target_agent", JStr (AgentType_value (target_agent m)));
    ("task_type",
      match task_type m with
      | Some t => JStr (TaskType_value t)
      | None => JNull
      end);
    ("payload", JDict (payload m));
    ("correlation_id", JStr (correlation_id m));
    ("priority", JStr (Priority_value (priority m)));
    ("timestamp", JStr (timestamp m));
    ("retry_count", JInt (retry_count m)) ].

(** What [from_json] makes of the dict [json.loads] returned. *)
Definition decode_fields (data : dict) : option AgentMessage :=
  id ← getitem data "message_id" ≫= as_str;
  mt ← getitem data "message_type" ≫= MessageType_of;
  src ← getitem data "source_agent" ≫= AgentType_of;
  tgt ← getitem data "target_agent" ≫= AgentType_of;
  kind ← (if truthy (get data "task_type" JNull)
          then Some <$> (getitem data "task_type" ≫= TaskType_of)
          else Some None);
  pl ← getitem data "payload" ≫= as_dict;
  cid ← as_str (get data "correlation_id" (JStr EmptyString));
  prio ← Priority_of (get data "priority" (JStr "medium"));
  ts ← as_str (get data "timestamp" (JStr EmptyString));
  rc ← as_int (get data "retry_count" (JInt 0));
  Some {| message_type := mt; source_agent := src; target_agent := tgt;
          payload := pl; task_type := kind; message_id := id; timestamp := ts;
          correlation_id := cid; priority := prio; retry_count := rc |}.

(** The keys [from_json] reads with [data[key]]. *)
Definition required_keys : list string :=
  ["message_id"; "message_type"; "source_agent"; "target_agent"; "payload"].

(** The keys [from_json] reads with [data.get(key, default)]. *)
Definition optional_keys : list string :=
  ["task_type"; "correlation_id"; "priority"; "timestamp"; "retry_count"].

(** A message without its task type. *)
Definition without_task_type (m : AgentMessage) : AgentMessage :=
  {| message_type := message_type m; source_agent := source_agent m;
     target_agent := target_agent m; payload := payload m;
     task_type := None; message_id := message_id m;
     timestamp := timestamp m; correlation_id := correlation_id m;
     priority := priority m; retry_count := retry_count m |}.

End wire.

(** * Vocabulary of the further statements, continued *)

Module outlook.
Import Json message_schema runtime messages message_queue agents orchestrator observations.

(** The message types [handle_message] answers. *)
Definition answerable (t : MessageType) : bool :=
  match t with
  | TASK_REQUEST | HEARTBEAT => true
  | _ => false
  end.

(** The event of [send_message] publishing a message on a queue. *)
Definition published (m : AgentMessage) (queue_name : string) (r : reply) : event :=
  Pika (basic_publish EmptyString queue_name (to_json m) (correlation_id m)
          (priority_hint (priority m))) r.

Definition returned (r : reply) : bool :=
  match r with
  | Returns _ _ => true
  | Raises _ => false
  end.

(** The calls into the client of a trace. *)
Fixpoint calls_in (tr : list event) : list call :=
  match tr with
  | [] => []
  | Pika c _ :: tr' => c :: calls_in tr'
  | _ :: tr' => calls_in tr'
  end.

(** What [check_agent_health] says of a queue from the answer to its
    inspection. *)
Definition verdict (r : reply) : string :=
  match r with
  | Returns _ consumers => if (0 <? consumers)%Z then "healthy" else "no_consumers"
  | Raises _ => "no_consumers"
  end.

(** The heartbeat [check_agent_health] makes for an agent, from the readings
    at hand. *)
Definition heartbeat_for (target : AgentType) (id now : string) : AgentMessage :=
  {| message_type := HEARTBEAT; source_agent := ORCHESTRATOR;
     message_schema.target_agent := target; payload := [];
     message_schema.task_type := None; message_id := id;
     timestamp := now +:+ "Z"; correlation_id := EmptyString;
     priority := MEDIUM; retry_count := 0 |}.

(** The payload [submit_workflow] gives the first step. *)
Definition workflow_payload (workflow : list dict) (initial_input : dict) : dict :=
  [("input", JDict initial_input); ("workflow", JList (map JDict workflow));
   ("step", JInt 0)].

(** An entry of a workflow step that names no member of an enumeration: the
    key is absent, or it holds a string that is no member's value. *)
Definition names_no_member {E : Type} (value : E -> string) (first : dict) (key : string)
  : Prop :=
  dict_get key first = None \/
  exists s, dict_get key first = Some (JStr s) /\ forall e : E, s <> value e.

(** The status a response leaves on its task. *)
Definition settles (t : MessageType) : bool :=
  match t with
  | TASK_RESPONSE | ERROR => true
  | _ => false
  end.

(** The entries of [get_queue_stats] and the verdicts of
    [check_agent_health], when the first inspection is the call numbered
    [first]. *)
Definition inspections (w : World) (first : nat) : dict :=
  map (fun kv => (AgentType_value (fst kv), inspected (pika w (first + position (fst kv)))))
    AGENT_QUEUES.

Definition verdicts (w : World) (first : nat) : list (string * string) :=
  map (fun kv => (AgentType_value (fst kv), verdict (pika w (first + position (fst kv)))))
    AGENT_QUEUES.

(** The request [send_task] makes. *)
Definition delegated (agent : BaseAgent) (target : AgentType) (kind : TaskType)
    (pl : dict) (cid : string) (w : World) : AgentMessage :=
  {| message_type := TASK_REQUEST; source_agent := agent_type agent;
     message_schema.target_agent := target; payload := pl;
     message_schema.task_type := Some kind;
     message_id := uuid4 w (uuid_calls w);
     timestamp := utcnow w (clock_calls w) +:+ "Z";
     correlation_id := cid; priority := MEDIUM; retry_count := 0 |}.

(** The world after [_handle_response]: the clock is read when the message
    names a task, and the callback, if any, is called. *)
Definition stamped (m : AgentMessage) (w : World) (o : Orchestrator) : World :=
  match tasks o !! correlation_id m with
  | Some _ => read w
  | None => w
  end.

Definition called_back (m : AgentMessage) (w : World) (o : Orchestrator) : World :=
  match response_handlers o !! correlation_id m with
  | Some handler => log (Invoke (handler_name handler) m) (stamped m w o)
  | None => stamped m w o
  end.

(** The status and the result a settling message gives its task. *)
Definition status_from (m : AgentMessage) : string :=
  match message_type m with
  | TASK_RESPONSE => "completed"
  | _ => "failed"
  end.

Definition result_from (m : AgentMessage) : json :=
  match message_type m with
  | TASK_RESPONSE => get (payload m) "result" (JDict (payload m))
  | _ => JDict (payload m)
  end.

End outlook.

(** * Further sample values *)

Module examples.
Import Json message_schema runtime messages message_queue agents orchestrator samples.

Definition reviewing_agent : BaseAgent :=
  {| agent_type := LOCAL_CLAUDE;
     process_task := fun _ pl => Ok [("review", JStr "looks fine"); ("input", JDict pl)] |}.

Definition sample_heartbeat : AgentMessage :=
  {| message_type := HEARTBEAT; source_agent := ORCHESTRATOR;
     message_schema.target_agent := LOCAL_OPENAI; payload := [];
     message_schema.task_type := None; message_id := "beat-7";
     timestamp := "2024-01-15T10:29:00Z"; correlation_id := EmptyString;
     priority := MEDIUM; retry_count := 0 |}.

(** A message as a sender of another implementation could write it, with
    the required keys only, and one that names an agent nobody knows. *)
Definition minimal_fields : dict :=
  [("payload", JDict [("q", JInt 1)]); ("message_id", JStr "m-1");
   ("target_agent", JStr "cloud_gemini"); ("source_agent", JStr "orchestrator");
   ("message_type", JStr "task_request")].

Definition stray_fields : dict :=
  [("message_id", JStr "m-2"); ("message_type", JStr "task_request");
   ("source_agent", JStr "orchestrator"); ("target_agent", JStr "local_llama");
   ("payload", JDict [])].

(** A message cut short: the sender and the rest are missing. *)
Definition truncated_fields : dict :=
  [("message_id", JStr "m-3"); ("message_type", JStr "heartbeat")].

Definition raising : Callable :=
  {| handler_name := "raising";
     handler_run := fun _ => Raise {| is_AMQPConnectionError := false; str := "boom" |} |}.

(** An orchestrator waiting for two answers; the callback of the first
    raises. *)
Definition waiting_twice : Orchestrator :=
  {| mq := online;
     objects := [pending_review;
                 {| task_id := "task-1"; task_type := DATA_ANALYSIS;
                    target_agent := CLOUD_GEMINI; status := "processing";
                    submitted_at := "2024-01-15T10:30:01";
                    completed_at := EmptyString; result := JDict [] |}];
     tasks := {["task-0" := 0; "task-1" := 1]};
     response_handlers := {["task-0" := raising]} |}.

(** An orchestrator whose one task is completed, the callback still
    registered. *)
Definition settled : Orchestrator :=
  {| mq := online;
     objects := [set_status "completed" pending_review];
     tasks := {["task-0" := 0]}; response_handlers := {["task-0" := notify]} |}.

Definition failure_of (cid : string) : AgentMessage :=
  {| message_type := ERROR; source_agent := LOCAL_CLAUDE;
     message_schema.target_agent := ORCHESTRATOR;
     payload := [("success", JBool false); ("result", JDict [("error", JStr "rate limited")])];
     message_schema.task_type := Some CODE_REVIEW; message_id := "reply-2";
     timestamp := "2024-01-15T10:32:00Z"; correlation_id := cid;
     priority := MEDIUM; retry_count := 0 |}.

(** A broker with one consumer on the second queue only. *)
Definition one_consumer : World :=
  world_of (fun n => if (n =? 4)%nat then Returns 2 1 else Returns 0 0).

Definition review_step : dict :=
  [("agent", JStr "local_claude"); ("task", JStr "code_review")].

Definition unknown_step : dict :=
  [("agent", JStr "local_llama"); ("task", JStr "code_review")].

(** A step whose agent is given by number and whose task is missing. *)
Definition numbered_step : dict := [("agent", JInt 2)].

End examples.

(** * Proofs *)

Create HintDb py.
#[local] Hint Unfold mbind mret runtime.Py_bind runtime.Py_ret runtime.bind runtime.ret
  runtime.raise runtime.try_except runtime.self runtime.modify runtime.within
  runtime.client runtime.sleep runtime.now runtime.new_uuid runtime.invoke
  message_queue.calls_so_far : py.

Ltac run := repeat progress (autounfold with py; cbn).

Ltac answer :=
  match goal with
  | |- context [runtime.pika ?w ?n] =>
      let E := fresh "E" in
      destruct (runtime.pika w n) as [? ?|?] eqn:E; cbn
  end.

(** ** The json round trip *)

Module JsonFacts.
Import Json.
Local Open Scope char_scope.

Lemma scanstring_escape_char c k :
  scanstring (escape_char c k) = push c (scanstring k).
Proof.
  destruct c as [[] [] [] [] [] [] [] []]; reflexivity.
Qed.

Lemma scanstring_escape s k :
  scanstring (escape s (String quote k)) = Some (s, k).
Proof.
  induction s as [|c s IH]; simpl.
  - reflexivity.
  - rewrite scanstring_escape_char, IH. reflexivity.
Qed.

Lemma to_uint_leading p : leading (Pos.to_uint p) = true.
Proof.
  pose proof (Unsigned.to_of (Pos.to_uint p)) as Hn.
  rewrite Unsigned.of_to in Hn. simpl in Hn.
  pose proof (Unsigned.to_uint_nonzero p) as Hz.
  destruct (Pos.to_uint p) as [|u|u|u|u|u|u|u|u|u|u] eqn:E; try reflexivity.
  - exfalso. now apply (Unsigned.to_uint_nonnil p).
  - exfalso. destruct (Decimal.uint_eq_dec u Decimal.Nil) as [->|Hu].
    + now apply Hz.
    + rewrite unorm_D0 in Hn. pose proof (nb_digits_unorm u Hu) as Hd.
      rewrite <- Hn in Hd. simpl in Hd. lia.
Qed.

Lemma scan_digits_string_of_uint u r :
  no_digit r = true ->
  scan_digits (NilEmpty.string_of_uint u +:+ r) = (u, r).
Proof.
  intros Hr. induction u; simpl; try (rewrite IHu; reflexivity).
  destruct r as [|c r]; [reflexivity|]. simpl in *.
  destruct (digit_of c); [discriminate|reflexivity].
Qed.

Lemma delimited_no_digit r : delimited r = true -> no_digit r = true.
Proof.
  destruct r as [|c r]; [reflexivity|]. simpl.
  destruct c as [[] [] [] [] [] [] [] []]; simpl; congruence.
Qed.

Lemma delimited_no_float r : delimited r = true -> starts_float_tail r = false.
Proof.
  destruct r as [|c r]; [reflexivity|]. simpl.
  destruct c as [[] [] [] [] [] [] [] []]; simpl; congruence.
Qed.

Lemma decode_digits fuel neg u r :
  leading u = true -> delimited r = true ->
  decode (S fuel) (signed neg (NilEmpty.string_of_uint u +:+ r))
  = Some (JInt (Z.of_int (if neg then Decimal.Neg u else Decimal.Pos u)), r).
Proof.
  intros Hu Hr.
  pose proof (delimited_no_digit r Hr) as Hd.
  pose proof (delimited_no_float r Hr) as Hf.
  destruct u; try discriminate Hu; destruct neg;
    unfold signed; cbn; unfold scan_number, scan_intpart; cbn.
    all: rewrite (scan_digits_string_of_uint _ r Hd); cbn; rewrite Hf; reflexivity.
Qed.

Lemma decode_int fuel z r :
  delimited r = true ->
  decode (S fuel) (str_int z +:+ r) = Some (JInt z, r).
Proof.
  intros Hr. destruct z as [|p|p].
  - pose proof (delimited_no_float r Hr) as Hf.
    cbn. unfold scan_number, scan_intpart. cbn. rewrite Hf. reflexivity.
  - change (str_int (Z.pos p) +:+ r)
      with (signed false (NilEmpty.string_of_uint (Pos.to_uint p) +:+ r)).
    rewrite decode_digits by auto using to_uint_leading.
    do 3 f_equal. exact (DecimalZ.of_to (Z.pos p)).
  - change (str_int (Z.neg p) +:+ r)
      with (signed true (NilEmpty.string_of_uint (Pos.to_uint p) +:+ r)).
    rewrite decode_digits by auto using to_uint_leading.
    do 3 f_equal. exact (DecimalZ.of_to (Z.neg p)).
Qed.

Lemma encode_value_start v k : value_start (encode v k) = true.
Proof.
  destruct v as [|[]|z|s|l|d]; try reflexivity.
  destruct z as [|p|p]; try reflexivity.
  unfold encode, str_int. cbn.
  pose proof (to_uint_leading p) as H.
  destruct (Pos.to_uint p); try discriminate H; reflexivity.
Qed.

Lemma expect_value_start c s :
  value_start s = true ->
  (c = "]" \/ c = "}" \/ c = "," \/ c = ":") ->
  expect c s = None.
Proof.
  destruct s as [|a s]; [discriminate|]. unfold expect, value_start. cbn.
  intros H. apply andb_prop in H as [H H5]. apply andb_prop in H as [H H4].
  apply andb_prop in H as [H H3]. apply andb_prop in H as [H1 H2].
  apply negb_true_iff in H1. rewrite H1.
  intros [->|[->|[->| ->]]].
  - rewrite Ascii.eqb_sym. now apply negb_true_iff in H2 as ->.
  - rewrite Ascii.eqb_sym. now apply negb_true_iff in H3 as ->.
  - rewrite Ascii.eqb_sym. now apply negb_true_iff in H4 as ->.
  - rewrite Ascii.eqb_sym. now apply negb_true_iff in H5 as ->.
Qed.

Lemma decode_space fuel s : decode fuel (String " " s) = decode fuel s.
Proof. destruct fuel; reflexivity. Qed.

Lemma decode_items_space fuel s : decode_items fuel (String " " s) = decode_items fuel s.
Proof. destruct fuel; [reflexivity|]. cbn [decode_items]. now rewrite decode_space. Qed.

Lemma decode_members_space fuel s : decode_members fuel (String " " s) = decode_members fuel s.
Proof. destruct fuel; reflexivity. Qed.

Lemma dict_set_fresh {V : Type} k (v : V) d :
  existsb (String.eqb k) (map fst d) = false -> dict_set k v d = d ++ [(k, v)].
Proof.
  induction d as [|[k' v'] d IH]; cbn; [reflexivity|].
  intros H. apply orb_false_elim in H as [H1 H2].
  rewrite H1, IH by assumption. reflexivity.
Qed.

Lemma distinct_app_cons l k l' :
  distinct (l ++ k :: l') = true ->
  existsb (String.eqb k) l = false /\ distinct ((l ++ [k]) ++ l') = true.
Proof.
  induction l as [|a l IH]; cbn.
  - intros H. split; [reflexivity|exact H].
  - intros H. apply andb_prop in H as [H1 H2].
    destruct (IH H2) as [H3 H4]. rewrite H4, andb_true_r.
    rewrite <- app_assoc. cbn. rewrite H1. split; [|reflexivity].
    apply negb_true_iff in H1. rewrite existsb_app in H1. cbn in H1.
    apply orb_false_elim in H1 as [_ H1]. apply orb_false_elim in H1 as [H1 _].
    rewrite String.eqb_sym, H1. exact H3.
Qed.

Lemma fold_dict_set {V : Type} (l acc : list (string * V)) :
  distinct (map fst (acc ++ l)) = true ->
  fold_left (fun d kv => dict_set (fst kv) (snd kv) d) l acc = acc ++ l.
Proof.
  revert acc. induction l as [|[k v] l IH]; intros acc H; cbn.
  - now rewrite app_nil_r.
  - rewrite map_app in H. cbn in H.
    apply distinct_app_cons in H as [H1 H2].
    rewrite dict_set_fresh by assumption.
    rewrite IH.
    + now rewrite <- app_assoc.
    + rewrite !map_app. exact H2.
Qed.

Lemma dict_of_pairs_distinct {V : Type} (l : list (string * V)) :
  distinct (map fst l) = true -> dict_of_pairs l = l.
Proof. intros H. unfold dict_of_pairs. now rewrite fold_dict_set. Qed.

Lemma expect_head c k : is_ws c = false -> expect c (String c k) = Some k.
Proof. intros H. unfold expect. cbn. now rewrite H, Ascii.eqb_refl. Qed.

Lemma sep_by_cons {A : Type} (f : A -> string -> string) x y l k :
  sep_by f (x :: y :: l) k = f x (String "," (String " " (sep_by f (y :: l) k))).
Proof. reflexivity. Qed.

Lemma items_size_cons x l : items_size (x :: l) = S (json_size x) + items_size l.
Proof. reflexivity. Qed.

Lemma members_size_cons key x d :
  members_size ((key, x) :: d) = S (json_size x) + members_size d.
Proof. reflexivity. Qed.

Lemma json_size_list l : json_size (JList l) = S (items_size l).
Proof. reflexivity. Qed.

Lemma json_size_dict d : json_size (JDict d) = S (members_size d).
Proof. reflexivity. Qed.

Lemma decode_encode_fuel fuel :
  (forall v k, json_size v <= fuel -> valid v = true -> delimited k = true ->
               decode fuel (encode v k) = Some (v, k)) /\
  (forall l k, l <> [] -> items_size l <= fuel -> forallb valid l = true ->
               decode_items fuel (sep_by encode l (String "]" k)) = Some (l, k)) /\
  (forall d k, d <> [] -> members_size d <= fuel -> members_valid d = true ->
               decode_members fuel (sep_by encode_member d (String "}" k)) = Some (d, k)).
Proof.
  induction fuel as [|fuel (IHv & IHl & IHd)].
  - split; [|split].
    + intros v k H. destruct v; cbn in H; lia.
    + intros [|x l] k Hne H; [congruence|]. cbn in H. lia.
    + intros [|[key x] d] k Hne H; [congruence|]. cbn in H. lia.
  - split; [|split].
    + intros v k Hsz Hv Hk. destruct v as [|[]|z|s|l|d]; try reflexivity.
      * now apply decode_int.
      * cbn. unfold encode_str. now rewrite scanstring_escape.
      * destruct l as [|x l]; [reflexivity|].
        cbn [encode]. cbn [decode skip_ws is_ws Ascii.eqb Bool.eqb orb].
        rewrite expect_value_start; [|destruct l; apply encode_value_start|auto].
        rewrite json_size_list in Hsz. rewrite IHl; [reflexivity|congruence|lia|exact Hv].
      * destruct d as [|[key x] d]; [reflexivity|].
        cbn [encode]. cbn [decode skip_ws is_ws Ascii.eqb Bool.eqb orb].
        rewrite expect_value_start; [|destruct d; reflexivity|auto].
        cbn [valid] in Hv. apply andb_prop in Hv as [Hd Hv].
        rewrite json_size_dict in Hsz.
        change (sep_by _ ((key, x) :: d) (String "}" k))
          with (sep_by encode_member ((key, x) :: d) (String "}" k)).
        rewrite IHd; [|congruence|lia|exact Hv].
        cbn [bind2]. now rewrite dict_of_pairs_distinct.
    + intros [|x l] k Hne Hsz Hv; [congruence|].
      rewrite items_size_cons in Hsz.
      cbn [forallb] in Hv. apply andb_prop in Hv as [Hx Hv].
      cbn [decode_items]. destruct l as [|y l].
      * cbn [sep_by]. rewrite IHv; [|lia|exact Hx|reflexivity]. cbn [bind2].
        reflexivity.
      * rewrite sep_by_cons. rewrite IHv; [|lia|exact Hx|reflexivity]. cbn [bind2].
        rewrite expect_head by reflexivity.
        rewrite decode_items_space.
        rewrite IHl; [reflexivity|congruence|lia|exact Hv].
    + intros [|[key x] d] k Hne Hsz Hv; [congruence|].
      rewrite members_size_cons in Hsz.
      cbn [members_valid forallb] in Hv. apply andb_prop in Hv as [Hx Hv].
      cbn [decode_members]. destruct d as [|y d].
      * cbn [sep_by encode_member]. unfold encode_str.
        rewrite expect_head by reflexivity. rewrite scanstring_escape. cbn [bind2].
        rewrite expect_head by reflexivity. rewrite decode_space.
        rewrite IHv; [|lia|exact Hx|reflexivity]. cbn [bind2]. reflexivity.
      * rewrite sep_by_cons. cbn [encode_member]. unfold encode_str.
        rewrite expect_head by reflexivity. rewrite scanstring_escape. cbn [bind2].
        rewrite expect_head by reflexivity. rewrite decode_space.
        rewrite IHv; [|lia|exact Hx|reflexivity]. cbn [bind2].
        rewrite expect_head by reflexivity. rewrite decode_members_space.
        rewrite IHd; [reflexivity|congruence|lia|exact Hv].
Qed.

Lemma length_append s k : String.length (s +:+ k) = String.length s + String.length k.
Proof. induction s as [|c s IH]; cbn; [reflexivity|]. now rewrite IH. Qed.

Lemma length_escape_char c k : String.length k < String.length (escape_char c k).
Proof.
  unfold escape_char.
  repeat match goal with |- context [if ?b then _ else _] => destruct b end; cbn; lia.
Qed.

Lemma length_escape s k : String.length k <= String.length (escape s k).
Proof.
  induction s as [|c s IH]; cbn; [lia|].
  pose proof (length_escape_char c (escape s k)). lia.
Qed.

Lemma length_encode_str s k : String.length k + 2 <= String.length (encode_str s k).
Proof.
  unfold encode_str. cbn. pose proof (length_escape s (String quote k)) as H.
  cbn in H. lia.
Qed.

Lemma length_str_int z : 1 <= String.length (str_int z).
Proof.
  destruct z as [|p|p]; cbn; try lia.
  pose proof (to_uint_leading p) as H. unfold str_int. cbn.
  destruct (Pos.to_uint p); try discriminate H; cbn; lia.
Qed.

Lemma length_encode_fuel n :
  (forall v k, json_size v <= n -> json_size v + String.length k <= String.length (encode v k)) /\
  (forall l k, items_size l <= n ->
               items_size l + String.length k <= S (String.length (sep_by encode l k))) /\
  (forall d k, members_size d <= n ->
               members_size d + String.length k <= S (String.length (sep_by encode_member d k))).
Proof.
  induction n as [|n (IHv & IHl & IHd)].
  - split; [|split].
    + intros v k H. destruct v; cbn in H; lia.
    + intros [|x l] k H; cbn in *; lia.
    + intros [|[key x] d] k H; cbn in *; lia.
  - split; [|split].
    + intros v k Hsz. destruct v as [|[]|z|s|l|d]; try (cbn; lia).
      * cbn [encode json_size]. rewrite length_append.
        pose proof (length_str_int z). lia.
      * cbn [encode json_size]. pose proof (length_encode_str s k). lia.
      * rewrite json_size_list in *. cbn [encode String.length].
        pose proof (IHl l (String "]" k)) as H. cbn [String.length] in H. lia.
      * rewrite json_size_dict in *. cbn [encode String.length].
        pose proof (IHd d (String "}" k)) as H. cbn [String.length] in H.
        change (sep_by _ d (String "}" k)) with (sep_by encode_member d (String "}" k)).
        lia.
    + intros [|x [|y l]] k Hsz.
      * cbn. lia.
      * cbn [sep_by]. rewrite items_size_cons in *. pose proof (IHv x k). cbn in *. lia.
      * rewrite sep_by_cons. rewrite items_size_cons in *.
        pose proof (IHv x (String "," (String " " (sep_by encode (y :: l) k)))) as H1.
        pose proof (IHl (y :: l) k) as H2. cbn [String.length] in H1. lia.
    + intros [|[key x] [|y d]] k Hsz.
      * cbn. lia.
      * cbn [sep_by encode_member]. rewrite members_size_cons in *.
        pose proof (length_encode_str key (String ":" (String " " (encode x k)))) as H1.
        pose proof (IHv x k). cbn [String.length members_size fold_right] in *. lia.
      * rewrite sep_by_cons. cbn [encode_member]. rewrite members_size_cons in *.
        pose proof (length_encode_str key (String ":" (String " " (encode x
           (String "," (String " " (sep_by encode_member (y :: d) k))))))) as H1.
        pose proof (IHv x (String "," (String " " (sep_by encode_member (y :: d) k)))) as H2.
        pose proof (IHd (y :: d) k) as H3. cbn [String.length] in H1, H2. lia.
Qed.

Lemma loads_dumps v : valid v = true -> loads (dumps v) = Some v.
Proof.
  intros Hv. unfold loads, dumps.
  destruct (decode_encode_fuel (S (String.length (encode v EmptyString)))) as [H _].
  rewrite H; [reflexivity| |exact Hv|reflexivity].
  destruct (length_encode_fuel (json_size v)) as [L _].
  specialize (L v EmptyString (le_n _)). lia.
Qed.

(** The decoder on text the encoder does not produce. *)
Example loads_spaced :
  loads " [1 , [true,null ] ,-20,{ } ] "%string =
  Some (JList [JInt 1; JList [JBool true; JNull]; JInt (-20); JDict []]).
Proof. reflexivity. Qed.

Example loads_leading_zero : loads "[01]"%string = None.
Proof. reflexivity. Qed.

Example loads_trailing_comma : loads "[1,]"%string = None.
Proof. reflexivity. Qed.

Example loads_fraction : loads "1.5"%string = None.
Proof. reflexivity. Qed.

Example dumps_separators :
  dumps (JList [JInt 1; JList [JBool true; JNull]; JInt (-20); JDict []])
  = "[1, [true, null], -20, {}]"%string.
Proof. reflexivity. Qed.

End JsonFacts.

(** * Properties of the message schema *)

Section Schema.
Import Json message_schema.

Lemma MessageType_of_value t : MessageType_of (JStr (MessageType_value t)) = Some t.
Proof. destruct t; reflexivity. Qed.

Lemma AgentType_of_value a : AgentType_of (JStr (AgentType_value a)) = Some a.
Proof. destruct a; reflexivity. Qed.

Lemma TaskType_of_value t : TaskType_of (JStr (TaskType_value t)) = Some t.
Proof. destruct t; reflexivity. Qed.

Lemma Priority_of_value p : Priority_of (JStr (Priority_value p)) = Some p.
Proof. destruct p; reflexivity. Qed.

Lemma TaskType_value_truthy t : truthy (JStr (TaskType_value t)) = true.
Proof. destruct t; reflexivity. Qed.

Lemma valid_JDict d : valid (JDict d) = distinct (map fst d) && members_valid d.
Proof. reflexivity. Qed.

(** C1. Deserializing the serialization of a message whose payload is
    JSON-representable gives the message back, field for field:
    [from_json (to_json m) = m]. *)
Theorem from_json_to_json (m : AgentMessage) :
  valid_message m = true -> from_json (to_json m) = Some m.
Proof.
  intros Hm. unfold from_json, to_json, valid_message in *.
  destruct m as [mt src tgt pl kind id ts cid prio rc].
  cbn [message_type source_agent target_agent payload task_type message_id
       timestamp correlation_id priority retry_count] in *.
  set (tjson := match kind with
                | Some t => if truthy (JStr (TaskType_value t)) then JStr (TaskType_value t) else JNull
                | None => JNull
                end).
  rewrite JsonFacts.loads_dumps.
  - cbn [mbind option_bind as_dict getitem get dict_get String.eqb Ascii.eqb Bool.eqb as_str as_int].
    rewrite MessageType_of_value, !AgentType_of_value, Priority_of_value.
    cbn [mbind option_bind].
    subst tjson. destruct kind as [t|].
    + rewrite !TaskType_value_truthy. rewrite TaskType_of_value. reflexivity.
    + reflexivity.
  - assert (Ht : valid tjson = true) by (subst tjson; destruct kind as [[]|]; reflexivity).
    rewrite valid_JDict.
    cbn [members_valid forallb map fst distinct existsb String.eqb Ascii.eqb Bool.eqb
         negb andb orb].
    rewrite Hm, Ht. reflexivity.
Qed.

End Schema.

(** * Properties of the messages made at run time *)

Section Responses.
Import Json message_schema runtime messages agents.
Context {S : Type}.

Lemma new_AgentMessage_run mt src tgt pl kind cid prio (w : World) (st : S) :
  new_AgentMessage mt src tgt pl kind cid prio w st
  = (read (drawn w), st,
     Ok {| message_type := mt; source_agent := src; target_agent := tgt;
           payload := pl; task_type := kind;
           message_id := uuid4 w (uuid_calls w);
           timestamp := utcnow w (clock_calls w) +:+ "Z";
           correlation_id := cid; priority := prio; retry_count := 0 |}).
Proof. reflexivity. Qed.

(** C2. [create_response] returns a new message: its type is
    [task_response] on success and [error] otherwise, source and target are
    swapped, the task type is kept, the payload is
    [{"success": s, "result": r}], and the correlation id is the request's when
    that is not empty and the request's message id otherwise. *)
Theorem create_response_fields (m : AgentMessage) (r : dict) (s : bool)
    (w : World) (st : S) :
  exists w' m',
    create_response m r s w st = (w', st, Ok m') /\
    message_type m' = (if s then TASK_RESPONSE else ERROR) /\
    source_agent m' = target_agent m /\
    target_agent m' = source_agent m /\
    task_type m' = task_type m /\
    payload m' = [("success", JBool s); ("result", JDict r)] /\
    correlation_id m' = (if String.eqb (correlation_id m) EmptyString
                         then message_id m else correlation_id m) /\
    message_id m' = uuid4 w (uuid_calls w).
Proof.
  unfold create_response. rewrite new_AgentMessage_run.
  eexists _, _. split; [reflexivity|]. cbn.
  repeat split. now destruct (String.eqb (correlation_id m) EmptyString).
Qed.

(** C3. On a task request, an exception of [process_task] is caught: the
    error response of [create_response] is returned, and [handle_message]
    itself returns in every case. *)
Theorem handle_message_catches (agent : BaseAgent) (m : AgentMessage)
    (w : World) (st : S) :
  message_type m = TASK_REQUEST ->
  (exists w' response, handle_message agent m w st = (w', st, Ok (Some response))) /\
  (forall e, process_task agent (task_type m) (payload m) = Raise e ->
     exists w' response,
       create_response m [("error", JStr (str e))] false w st = (w', st, Ok response) /\
       handle_message agent m w st = (w', st, Ok (Some response)) /\
       message_type response = ERROR).
Proof.
  intros Hm. unfold handle_message. rewrite Hm.
  unfold try_except, call_process_task, create_response, mbind, Py_bind, bind.
  split.
  - destruct (process_task agent (task_type m) (payload m)) as [result|e];
      rewrite new_AgentMessage_run; eexists _, _; reflexivity.
  - intros e He. rewrite He, new_AgentMessage_run.
    eexists _, _. repeat split.
Qed.

End Responses.

(** * Properties of the transport *)

Section Transport.
Import Json message_schema runtime messages message_queue observations.







(** C8, as the code has it. [get_queue_stats] returns: with a channel, the
    mapping has an entry for every agent, holding the counts of its queue, or
    zeros when the inspection of that queue raised; without a channel, the
    mapping is empty. *)
Theorem get_queue_stats_entries (w : World) (q : MessageQueue) :
  exists w' stats,
    get_queue_stats w q = (w', q, Ok stats) /\
    match channel q with
    | Some _ =>
        forall a : AgentType,
          dict_get (AgentType_value a) stats
          = Some (inspected (pika w (pika_calls w + position a)))
    | None => stats = []
    end.
Proof.
  unfold get_queue_stats. run. destruct (channel q) as [c|]; run.
  - replace (pika_calls w + 0) with (pika_calls w) by lia.
    assert (H : forall i, pika_calls w + Datatypes.S i = Datatypes.S (pika_calls w + i))
      by (intros; lia).
    do 4 answer;
      (eexists _, _; split; [reflexivity|];
       intros []; cbn; rewrite ?H, ?Nat.add_0_r;
       repeat match goal with E : pika _ _ = _ |- _ => rewrite E; clear E end;
       reflexivity).
  - eexists _, _. split; reflexivity.
Qed.

Lemma queue_of_known (a : AgentType) :
  exists name, queue_of a = Some name /\ String.eqb name EmptyString = false.
Proof. destruct a; eexists; split; reflexivity. Qed.

(** [send_message] returns, and with true exactly when the send goes
    through. *)
Lemma send_message_run (message : AgentMessage) (w : World) (q : MessageQueue) :
  exists w',
    send_message message w q = (w', q, Ok (send_ok w q)) /\
    uuid4 w' = uuid4 w /\ uuid_calls w' = uuid_calls w.
Proof.
  unfold send_message, send_ok.
  destruct (queue_of_known (target_agent message)) as (name & Hq & Hn).
  repeat progress (autounfold with py; cbn -[queue_of]).
  destruct (channel q) as [c|]; [|eexists; repeat split].
  rewrite Hq, Hn. run.
  answer; eexists; repeat split.
Qed.

End Transport.

(** * Properties of the orchestrator *)

Section Orchestrator.
Import Json message_schema runtime messages message_queue observations orchestrator.

Lemma track_task_run target kind pl prio on_complete (w : World) (o : Orchestrator) :
  track_task target kind pl prio on_complete w o
  = (read (read (drawn w)), tracked target kind on_complete w o,
     Ok (request_of target kind pl prio w, length (objects o))).
Proof. destruct on_complete; reflexivity. Qed.

Lemma submit_task_run target kind pl prio on_complete (w : World) (o : Orchestrator) :
  exists w',
    submit_task target kind pl prio on_complete w o
    = (w',
       set_objects
         (alter (set_status (if send_ok w (mq o) then "processing" else "failed"))
            (length (objects o)) (objects o ++ [record_of target kind w]))
         (tracked target kind on_complete w o),
       Ok (if send_ok w (mq o) then uuid4 w (uuid_calls w) else EmptyString)) /\
    exists w1 w2,
      send_message (request_of target kind pl prio w) w1 (mq o)
      = (w2, mq o, Ok (send_ok w (mq o))).
Proof.
  unfold submit_task. unfold mbind at 1, Py_bind at 1, bind at 1.
  rewrite track_task_run.
  unfold mbind at 1, Py_bind at 1, bind at 1, self_mq, within.
  destruct (send_message_run (request_of target kind pl prio w)
              (read (read (drawn w))) (mq o)) as (w2 & Hsend & _).
  change (mq (tracked target kind on_complete w o)) with (mq o).
  rewrite Hsend.
  change (send_ok (read (read (drawn w))) (mq o)) with (send_ok w (mq o)) in *.
  destruct (send_ok w (mq o)); run; (eexists; split; [reflexivity|eauto]).
Qed.

Lemma lookup_new_object {A : Type} (f : A -> A) (l : list A) (x : A) :
  alter f (length l) (l ++ [x]) !! length l = Some (f x).
Proof. rewrite list_lookup_alter_eq, list_lookup_middle by reflexivity. reflexivity. Qed.




(** A callback given to [submit_task] is registered under the message id. *)
Lemma submit_task_registers target kind pl prio handler (w : World) (o : Orchestrator) :
  exists w' o' r,
    submit_task target kind pl prio (Some handler) w o = (w', o', r) /\
    response_handlers o' !! uuid4 w (uuid_calls w) = Some handler.
Proof.
  destruct (submit_task_run target kind pl prio (Some handler) w o) as (w' & Hrun & _).
  eexists w', _, _. split; [exact Hrun|]. cbn. apply lookup_insert_eq.
Qed.

Lemma get_all_tasks_run (w : World) (o : Orchestrator) :
  get_all_tasks w o = (w, o, Ok ((map_to_list (tasks o)).*2)).
Proof. reflexivity. Qed.

Lemma elem_of_values (m : gmap string nat) (v : nat) :
  v ∈ (map_to_list m).*2 <-> exists k, m !! k = Some v.
Proof.
  rewrite list_elem_of_fmap. split.
  - intros [[k v'] [-> H]]. exists k. now apply elem_of_map_to_list in H.
  - intros [k H]. exists (k, v). split; [reflexivity|]. now apply elem_of_map_to_list.
Qed.

Lemma alter_alter {A : Type} (f g : A -> A) (i : nat) (l : list A) :
  alter f i (alter g i l) = alter (fun x => f (g x)) i l.
Proof. revert i. induction l as [|x l IH]; intros [|i]; cbn; [reflexivity..|]. now rewrite IH. Qed.

Lemma _handle_response_run (m : AgentMessage) (w : World) (o : Orchestrator) :
  exists w',
    _handle_response m w o
    = (w', handled m w o,
       match response_handlers o !! correlation_id m with
       | Some handler => handler_run handler m
       | None => Ok tt
       end) /\
    trace w' = trace w ++
               match response_handlers o !! correlation_id m with
               | Some handler => [Invoke (handler_name handler) m]
               | None => []
               end /\
    clock_calls w' = match tasks o !! correlation_id m with
                     | Some _ => Datatypes.S (clock_calls w)
                     | None => clock_calls w
                     end.
Proof.
  unfold _handle_response, handled, resolved, setattr. run.
  destruct o as [q objs tbl hs]. cbn.
  destruct (tbl !! correlation_id m) as [task|] eqn:Ht; run.
  - destruct (message_type m); run;
      unfold set_objects, set_response_handlers; cbn;
      rewrite ?alter_alter;
      (destruct (hs !! correlation_id m) as [h|] eqn:Hh; run;
       [|rewrite (delete_id hs (correlation_id m) Hh), ?app_nil_r];
       (eexists; split; [reflexivity|]; cbn; rewrite ?app_nil_r; split; reflexivity)).
  - destruct (hs !! correlation_id m) as [h|] eqn:Hh; run;
      [|rewrite (delete_id hs (correlation_id m) Hh), ?app_nil_r];
      (eexists; split; [reflexivity|]; cbn; rewrite ?app_nil_r; split; reflexivity).
Qed.

(** C6. A response whose correlation id is neither in the tasks table nor
    among the response handlers changes nothing and does not raise. *)
Theorem unknown_correlation_noop (m : AgentMessage) (w : World) (o : Orchestrator) :
  tasks o !! correlation_id m = None ->
  response_handlers o !! correlation_id m = None ->
  _handle_response m w o = (w, o, Ok tt).
Proof.
  intros Ht Hh. unfold _handle_response. run. rewrite Ht. run. rewrite Hh. reflexivity.
Qed.

(** C9. A message whose correlation id is in the tasks table stamps
    [completed_at] on the task whatever its type, and the registered callback,
    if any, is removed and called; the status and the result change for
    [task_response] and [error] only. *)
Theorem handle_response_stamps (m : AgentMessage) (w : World) (o : Orchestrator)
    (task : nat) (t : TaskStatus) :
  tasks o !! correlation_id m = Some task ->
  objects o !! task = Some t ->
  exists w' o' r t',
    _handle_response m w o = (w', o', r) /\
    tasks o' = tasks o /\
    objects o' !! task = Some t' /\
    completed_at t' = utcnow w (clock_calls w) /\
    match message_type m with
    | TASK_RESPONSE =>
        status t' = "completed" /\
        result t' = get (payload m) "result" (JDict (payload m))
    | ERROR => status t' = "failed" /\ result t' = JDict (payload m)
    | _ => status t' = status t /\ result t' = result t
    end /\
    match response_handlers o !! correlation_id m with
    | Some handler =>
        response_handlers o' = delete (correlation_id m) (response_handlers o) /\
        trace w' = trace w ++ [Invoke (handler_name handler) m] /\
        r = handler_run handler m
    | None =>
        response_handlers o' = response_handlers o /\ trace w' = trace w /\ r = Ok tt
    end.
Proof.
  intros Ht Ho.
  destruct (_handle_response_run m w o) as (w' & Hrun & Htr & _).
  eexists w', _, _, _. split; [exact Hrun|]. cbn. rewrite Ht.
  split; [reflexivity|]. split.
  { rewrite list_lookup_alter_eq, Ho. reflexivity. }
  split; [reflexivity|]. split.
  { unfold resolved. destruct (message_type m); split; reflexivity. }
  destruct (response_handlers o !! correlation_id m) as [h|] eqn:Hh.
  - repeat split. exact Htr.
  - rewrite app_nil_r in Htr. repeat split; [|exact Htr]. now apply delete_id.
Qed.

Lemma calls_for_app c tr1 tr2 : calls_for c (tr1 ++ tr2) = calls_for c tr1 ++ calls_for c tr2.
Proof. apply List.filter_app. Qed.

(** The listener's loop, as seen from one correlation id. *)
(** One turn of the listener: the message is handled and nothing is raised. *)
Lemma listener_turn_run (c : string) (m : AgentMessage) (w : World) (o : Orchestrator) :
  exists w',
    try_except (_handle_response m) Exception (fun e => sleep 1) w o
    = (w', handled m w o, Ok tt) /\
    calls_for c (trace w')
    = calls_for c (trace w) ++
      match response_handlers o !! correlation_id m with
      | Some handler => calls_for c [Invoke (handler_name handler) m]
      | None => []
      end.
Proof.
  destruct (_handle_response_run m w o) as (w1 & Hrun & Htr & _).
  unfold try_except. rewrite Hrun.
  destruct (response_handlers o !! correlation_id m) as [h|].
  - destruct (handler_run h m) as [[]|e]; cbn [Exception].
    + eexists. split; [reflexivity|]. now rewrite Htr, calls_for_app.
    + eexists. split; [reflexivity|].
      change (trace (log (Sleep 1) w1)) with (trace w1 ++ [Sleep 1]).
      rewrite calls_for_app, Htr, calls_for_app. cbn [calls_for List.filter invoked_for].
      apply List.app_nil_r.
  - eexists. split; [reflexivity|]. now rewrite Htr, calls_for_app.
Qed.

(** The listener's loop, as seen from one correlation id. *)
Lemma deliver_run (c : string) (ms : list AgentMessage) :
  forall (w : World) (o : Orchestrator),
    exists w' o',
      deliver ms w o = (w', o', Ok tt) /\
      calls_for c (trace w')
      = calls_for c (trace w) ++
        match response_handlers o !! c, find (carries c) ms with
        | Some handler, Some m => [Invoke (handler_name handler) m]
        | _, _ => []
        end /\
      response_handlers o' !! c
      = match find (carries c) ms with
        | Some _ => None
        | None => response_handlers o !! c
        end.
Proof.
  induction ms as [|m ms IH]; intros w o.
  - exists w, o. cbn. destruct (response_handlers o !! c); rewrite app_nil_r; repeat split.
  - destruct (listener_turn_run c m w o) as (w1 & Hrun & Htr).
    destruct (IH w1 (handled m w o)) as (w' & o' & Hrest & Hcalls & Hreg).
    exists w', o'. split.
    { cbn [deliver]. unfold mbind, Py_bind, bind. rewrite Hrun. exact Hrest. }
    rewrite Hcalls, Hreg, Htr. clear Hcalls Hreg Hrest Hrun Htr IH.
    cbn [find handled response_handlers].
    destruct (carries c m) eqn:Hc; unfold carries in Hc.
    + apply String.eqb_eq in Hc. subst c. rewrite lookup_delete_eq.
      destruct (response_handlers o !! correlation_id m) as [h|]; cbn;
        rewrite ?String.eqb_refl; cbn; rewrite ?app_nil_r;
        destruct (find (carries (correlation_id m)) ms); split; reflexivity.
    + rewrite lookup_delete_ne by (apply String.eqb_neq in Hc; assumption).
      split; [|reflexivity]. rewrite <- app_assoc. f_equal.
      destruct (response_handlers o !! correlation_id m) as [h|]; cbn;
        rewrite ?Hc; cbn; reflexivity.
Qed.

(** C5. A callback registered under a correlation id is called at most once
    over the messages the listener handles: the first message that carries
    the id calls it and removes the registration, and no later message with
    the same id calls it again. *)
Theorem callback_at_most_once (c : string) (handler : Callable)
    (ms : list AgentMessage) (w : World) (o : Orchestrator) :
  response_handlers o !! c = Some handler ->
  exists w' o',
    deliver ms w o = (w', o', Ok tt) /\
    calls_for c (trace w')
    = calls_for c (trace w) ++
      match find (carries c) ms with
      | Some m => [Invoke (handler_name handler) m]
      | None => []
      end /\
    length (calls_for c (trace w')) <= Datatypes.S (length (calls_for c (trace w))) /\
    response_handlers o' !! c
    = match find (carries c) ms with
      | Some _ => None
      | None => Some handler
      end.
Proof.
  intros Hreg. destruct (deliver_run c ms w o) as (w' & o' & Hrun & Hcalls & Hafter).
  rewrite Hreg in Hcalls, Hafter. exists w', o'.
  split; [exact Hrun|]. split; [exact Hcalls|]. split; [|exact Hafter].
  rewrite Hcalls, length_app. destruct (find (carries c) ms); cbn; lia.
Qed.

Lemma clear_completed_tasks_run (w : World) (o : Orchestrator) :
  clear_completed_tasks w o
  = (w, set_tasks (filter (fun kv => live o kv.2 = true) (tasks o)) o, Ok tt).
Proof. reflexivity. Qed.

(** C10. The record is in the table before the send is tried; when the send
    fails the caller gets the empty string while the table keeps the record,
    with status "failed", under the message id; [get_all_tasks] shows it,
    handling a response leaves it there, and [clear_completed_tasks] removes
    it. *)
Theorem failed_submit_leaves_record target kind pl prio on_complete
    (w : World) (o : Orchestrator) :
  send_ok w (mq o) = false ->
  let id := uuid4 w (uuid_calls w) in
  exists task,
    (exists w1 o1 message,
       track_task target kind pl prio on_complete w o = (w1, o1, Ok (message, task)) /\
       message_id message = id /\ tasks o1 !! id = Some task) /\
    exists w' o' t,
      submit_task target kind pl prio on_complete w o = (w', o', Ok EmptyString) /\
      tasks o' !! id = Some task /\ objects o' !! task = Some t /\
      task_id t = id /\ status t = "failed" /\
      (exists all, get_all_tasks w' o' = (w', o', Ok all) /\ task ∈ all) /\
      (forall m wx, exists wy oy r,
          _handle_response m wx o' = (wy, oy, r) /\ tasks oy !! id = Some task) /\
      exists o'',
        clear_completed_tasks w' o' = (w', o'', Ok tt) /\
        tasks o'' !! id = None /\
        exists all, get_all_tasks w' o'' = (w', o'', Ok all) /\ task ∉ all.
Proof.
  intros Hsend id. exists (length (objects o)). split.
  { rewrite track_task_run. eexists _, _, _. split; [reflexivity|]. cbn.
    split; [reflexivity|apply lookup_insert_eq]. }
  destruct (submit_task_run target kind pl prio on_complete w o) as (w' & Hrun & _).
  rewrite Hsend in Hrun.
  eexists w', _, _. split; [exact Hrun|]. cbn [tasks objects set_objects tracked].
  assert (Hobj : alter (set_status "failed") (length (objects o))
                   (objects o ++ [record_of target kind w]) !! length (objects o)
                 = Some (set_status "failed" (record_of target kind w)))
    by apply lookup_new_object.
  split; [apply lookup_insert_eq|]. split; [exact Hobj|].
  split; [reflexivity|]. split; [reflexivity|]. split.
  { eexists. split; [apply get_all_tasks_run|]. cbn.
    apply elem_of_values. exists id. apply lookup_insert_eq. }
  split.
  { intros m wx. destruct (_handle_response_run m wx
      (set_objects (alter (set_status "failed") (length (objects o))
         (objects o ++ [record_of target kind w])) (tracked target kind on_complete w o)))
      as (wy & Hy & _).
    eexists wy, _, _. split; [exact Hy|]. cbn. apply lookup_insert_eq. }
  eexists. split; [apply clear_completed_tasks_run|].
  assert (Hdead : forall k, ~ (filter (fun kv : string * nat =>
                      live (set_objects (alter (set_status "failed") (length (objects o))
                         (objects o ++ [record_of target kind w]))
                         (tracked target kind on_complete w o)) kv.2 = true)
                    (<[id := length (objects o)]> (tasks o))) !! k
                  = Some (length (objects o))).
  { intros k Hk. apply map_lookup_filter_Some in Hk as [_ Hlive].
    unfold live in Hlive. cbn in Hlive. rewrite Hobj in Hlive. discriminate. }
  split.
  { cbn. apply eq_None_not_Some. intros [v Hv].
    assert (v = length (objects o)) as ->.
    { apply map_lookup_filter_Some in Hv as [Hv _]. cbn in Hv.
      rewrite lookup_insert_eq in Hv. congruence. }
    exact (Hdead id Hv). }
  eexists. split; [apply get_all_tasks_run|]. cbn.
  rewrite elem_of_values. intros [k Hk]. exact (Hdead k Hk).
Qed.

(** ** The references of the table stay valid *)





End Orchestrator.

(** * The statements at sample values *)

Section Samples.
Import Json message_schema runtime messages message_queue agents orchestrator.
Import observations samples.

Lemma from_json_to_json_witness :
  valid_message sample_request = true /\
  from_json (to_json sample_request) = Some sample_request.
Proof.
  split; [reflexivity | apply (from_json_to_json sample_request); reflexivity].
Defined.

Lemma handle_message_catches_witness :
  message_type sample_request = TASK_REQUEST /\
  exists w' response,
    handle_message failing_agent sample_request quiet_world tt = (w', tt, Ok (Some response)) /\
    message_type response = ERROR.
Proof.
  split; [reflexivity|].
  destruct (handle_message_catches failing_agent sample_request quiet_world tt eq_refl)
    as [_ H].
  destruct (H _ eq_refl) as (w' & response & _ & Hrun & Herr).
  exists w', response. split; assumption.
Defined.




(** C8, as stated, fails: without a channel the mapping has no entry. *)
(** A negative delay: [time.sleep] refuses it inside the handler, and the
    [ValueError] leaves [connect] after the first failed attempt. *)
Lemma connect_negative_delay_raises :
  exists w' q' e,
    message_queue.connect 3 (-7) refusing_world offline = (w', q', Raise e) /\
    is_AMQPConnectionError e = false /\
    attempts_in (trace w') = 1.
Proof. eexists _, _, _. split; [reflexivity|]. split; reflexivity. Qed.

Lemma get_queue_stats_offline_empty :
  get_queue_stats quiet_world offline = (quiet_world, offline, Ok []) /\
  dict_get (AgentType_value LOCAL_CLAUDE) ([] : dict) = None.
Proof. split; reflexivity. Qed.

Lemma callback_at_most_once_witness :
  response_handlers waiting !! "task-0" = Some notify /\
  exists w' o',
    deliver [answer_of TASK_RESPONSE "task-0"; answer_of TASK_RESPONSE "task-0"]
      quiet_world waiting = (w', o', Ok tt) /\
    calls_for "task-0" (trace w') = [Invoke "notify" (answer_of TASK_RESPONSE "task-0")] /\
    response_handlers o' !! "task-0" = None.
Proof.
  split; [reflexivity|].
  destruct (callback_at_most_once "task-0" notify
              [answer_of TASK_RESPONSE "task-0"; answer_of TASK_RESPONSE "task-0"]
              quiet_world waiting eq_refl) as (w' & o' & Hrun & Hcalls & _ & Hreg).
  exists w', o'. split; [exact Hrun|]. split; [exact Hcalls|exact Hreg].
Defined.

Lemma unknown_correlation_noop_witness :
  tasks waiting !! "job-404" = None /\
  response_handlers waiting !! "job-404" = None /\
  _handle_response (answer_of TASK_RESPONSE "job-404") quiet_world waiting
  = (quiet_world, waiting, Ok tt).
Proof.
  split; [reflexivity|]. split; [reflexivity|].
  apply (unknown_correlation_noop (answer_of TASK_RESPONSE "job-404") quiet_world waiting);
    reflexivity.
Defined.

Lemma handle_response_stamps_witness :
  tasks waiting !! "task-0" = Some 0 /\
  objects waiting !! 0 = Some pending_review /\
  exists w' o' t',
    _handle_response (answer_of STATUS_UPDATE "task-0") quiet_world waiting
    = (w', o', Ok tt) /\
    objects o' !! 0 = Some t' /\
    completed_at t' = "2024-01-15T10:30:00" /\
    status t' = "processing" /\ result t' = JDict [] /\
    response_handlers o' !! "task-0" = None.
Proof.
  split; [reflexivity|]. split; [reflexivity|].
  destruct (handle_response_stamps (answer_of STATUS_UPDATE "task-0") quiet_world waiting
              0 pending_review eq_refl eq_refl)
    as (w' & o' & r & t' & Hrun & _ & Hobj & Hat & [Hst Hres] & Hcb).
  cbn in Hcb. destruct Hcb as (Hh & _ & ->).
  exists w', o', t'. split; [exact Hrun|]. split; [exact Hobj|].
  split; [exact Hat|]. split; [exact Hst|]. split; [exact Hres|].
  rewrite Hh. reflexivity.
Defined.

Lemma failed_submit_leaves_record_witness :
  send_ok quiet_world (mq disconnected) = false /\
  exists w' o' task t,
    submit_task LOCAL_CLAUDE CODE_REVIEW [("code", JStr "print(1)")] MEDIUM None
      quiet_world disconnected = (w', o', Ok EmptyString) /\
    tasks o' !! "task-0" = Some task /\ objects o' !! task = Some t /\
    status t = "failed".
Proof.
  split; [reflexivity|].
  destruct (failed_submit_leaves_record LOCAL_CLAUDE CODE_REVIEW
              [("code", JStr "print(1)")] MEDIUM None quiet_world disconnected eq_refl)
    as (task & _ & w' & o' & t & Hrun & Htask & Hobj & _ & Hst & _).
  exists w', o', task, t. repeat split; assumption.
Defined.

End Samples.

(** * Further properties of the message schema *)

Section Wire.
Import Json message_schema wire.

Lemma to_json_wire_fields (m : AgentMessage) : to_json m = dumps (JDict (wire_fields m)).
Proof.
  unfold to_json, wire_fields. destruct (task_type m) as [t|]; [|reflexivity].
  now rewrite TaskType_value_truthy.
Qed.

Lemma valid_wire_fields (m : AgentMessage) :
  valid_message m = true -> valid (JDict (wire_fields m)) = true.
Proof.
  unfold valid_message. intros Hm. rewrite valid_JDict. unfold wire_fields.
  cbn [members_valid forallb map fst distinct existsb String.eqb Ascii.eqb Bool.eqb
       negb andb orb].
  rewrite Hm. destruct (task_type m); reflexivity.
Qed.

Lemma from_json_dumps (data : dict) :
  valid (JDict data) = true -> from_json (dumps (JDict data)) = decode_fields data.
Proof. intros Hv. unfold from_json. now rewrite JsonFacts.loads_dumps. Qed.

Lemma decode_wire_fields (m : AgentMessage) : decode_fields (wire_fields m) = Some m.
Proof.
  destruct m as [mt src tgt pl kind id ts cid prio rc].
  unfold decode_fields, wire_fields.
  cbn [message_type source_agent target_agent payload task_type message_id
       timestamp correlation_id priority retry_count
       mbind option_bind as_dict getitem get dict_get String.eqb Ascii.eqb Bool.eqb
       as_str as_int].
  rewrite MessageType_of_value, !AgentType_of_value, Priority_of_value.
  cbn [mbind option_bind].
  destruct kind as [t|]; [|reflexivity].
  rewrite TaskType_value_truthy, TaskType_of_value. reflexivity.
Qed.

Lemma wire_round_trip (m : AgentMessage) :
  valid_message m = true -> from_json (to_json m) = Some m.
Proof.
  intros Hm. rewrite to_json_wire_fields, from_json_dumps by now apply valid_wire_fields.
  apply decode_wire_fields.
Qed.

(** X1. What [to_json] writes is a JSON object with the ten fields, all
    explicit, in the order of the schema; an absent task type is written as
    null. *)
Theorem to_json_all_fields (m : AgentMessage) :
  valid_message m = true ->
  loads (to_json m) =
  Some (JDict
    [ ("message_id", JStr (message_id m));
      ("message_type", JStr (MessageType_value (message_type m)));
      ("source_agent", JStr (AgentType_value (source_agent m)));
      ("target_agent", JStr (AgentType_value (target_agent m)));
      ("task_type", match task_type m with
                    | Some t => JStr (TaskType_value t)
                    | None => JNull
                    end);
      ("payload", JDict (payload m));
      ("correlation_id", JStr (correlation_id m));
      ("priority", JStr (Priority_value (priority m)));
      ("timestamp", JStr (timestamp m));
      ("retry_count", JInt (retry_count m)) ]).
Proof.
  intros Hm. rewrite to_json_wire_fields.
  now rewrite JsonFacts.loads_dumps by now apply valid_wire_fields.
Qed.

(** X2. Two messages with the same serialization are the same message. *)
Theorem to_json_injective (m1 m2 : AgentMessage) :
  valid_message m1 = true -> valid_message m2 = true ->
  to_json m1 = to_json m2 -> m1 = m2.
Proof.
  intros H1 H2 Heq. apply (f_equal from_json) in Heq.
  rewrite !to_json_wire_fields in Heq.
  rewrite !from_json_dumps, !decode_wire_fields in Heq by now apply valid_wire_fields.
  now injection Heq.
Qed.

Lemma decode_fields_missing (data : dict) (key : string) :
  key ∈ required_keys -> dict_get key data = None -> decode_fields data = None.
Proof.
  unfold required_keys, decode_fields, getitem. intros Hkey Hnone.
  repeat (apply elem_of_cons in Hkey as [->|Hkey]);
    [..|now apply elem_of_nil in Hkey];
    rewrite ?Hnone;
    repeat match goal with
           | |- context [mbind ?f (mbind ?g (dict_get ?k data))] =>
               destruct (mbind g (dict_get k data)); cbn [mbind option_bind];
               try reflexivity
           | |- context [if ?b then _ else _] =>
               destruct b; cbn [mbind option_bind]; try reflexivity
           | |- context [fmap ?f ?o] =>
               destruct o; cbn [fmap option_fmap option_map mbind option_bind];
               try reflexivity
           end.
Qed.

(** X3. A JSON object that lacks one of the keys [from_json] indexes
    ([message_id], [message_type], [source_agent], [target_agent],
    [payload]) gives no message. *)
Theorem from_json_missing_key (data : dict) (key : string) :
  valid (JDict data) = true ->
  key ∈ required_keys ->
  dict_get key data = None ->
  from_json (dumps (JDict data)) = None.
Proof.
  intros Hv Hkey Hnone. rewrite from_json_dumps by assumption.
  now apply (decode_fields_missing data key).
Qed.


(** X4. The keys [from_json] reads with [get] may be absent: the message
    then has no task type, an empty correlation id, priority medium, an empty
    timestamp and retry count 0. *)
Theorem from_json_defaults (data : dict) (id : string) (mt : MessageType)
    (src tgt : AgentType) (pl : dict) :
  valid (JDict data) = true ->
  dict_get "message_id" data = Some (JStr id) ->
  dict_get "message_type" data = Some (JStr (MessageType_value mt)) ->
  dict_get "source_agent" data = Some (JStr (AgentType_value src)) ->
  dict_get "target_agent" data = Some (JStr (AgentType_value tgt)) ->
  dict_get "payload" data = Some (JDict pl) ->
  (forall key, key ∈ optional_keys -> dict_get key data = None) ->
  from_json (dumps (JDict data))
  = Some {| message_type := mt; source_agent := src; target_agent := tgt;
            payload := pl; task_type := None; message_id := id;
            timestamp := EmptyString; correlation_id := EmptyString;
            priority := MEDIUM; retry_count := 0 |}.
Proof.
  intros Hv Hid Hmt Hsrc Htgt Hpl Hopt. rewrite from_json_dumps by assumption.
  unfold decode_fields, getitem, get.
  rewrite Hid, Hmt, Hsrc, Htgt, Hpl.
  rewrite !Hopt by (unfold optional_keys; set_solver).
  cbn [mbind option_bind as_str as_dict as_int truthy].
  rewrite MessageType_of_value, !AgentType_of_value. reflexivity.
Qed.

Lemma by_value_unknown {E : Type} (members : list E) (value : E -> string) (v : json) :
  (forall e, v <> JStr (value e)) -> by_value members value v = None.
Proof.
  intros Hv. destruct v as [| | |s| |]; try reflexivity. cbn.
  destruct (find _ members) as [e|] eqn:He; [|reflexivity].
  apply find_some in He as [_ He]. apply String.eqb_eq in He. subst s.
  now destruct (Hv e).
Qed.

(** X5. A value that belongs to no member of its enumeration, in
    [message_type], [source_agent], [target_agent], [priority] or a non-empty
    [task_type], gives no message. *)
Theorem from_json_unknown_member (data : dict) :
  valid (JDict data) = true ->
  (forall t, get data "message_type" JNull <> JStr (MessageType_value t)) \/
  (forall a, get data "source_agent" JNull <> JStr (AgentType_value a)) \/
  (forall a, get data "target_agent" JNull <> JStr (AgentType_value a)) \/
  (forall p, get data "priority" (JStr "medium") <> JStr (Priority_value p)) \/
  (truthy (get data "task_type" JNull) = true /\
   forall t, get data "task_type" JNull <> JStr (TaskType_value t)) ->
  from_json (dumps (JDict data)) = None.
Proof.
  intros Hv H. rewrite from_json_dumps by assumption.
  unfold decode_fields, getitem.
  assert (Hget : forall key o (f : json -> option o) d,
             f d = None -> f (get data key d) = None ->
             dict_get key data ≫= f = None).
  { intros key o f d Hd Hf. unfold get in Hf.
    destruct (dict_get key data); [exact Hf|reflexivity]. }
  destruct (dict_get "message_id" data ≫= as_str) as [id|];
    cbn [mbind option_bind]; [|reflexivity].
  destruct H as [H|H].
  { rewrite (Hget "message_type" _ MessageType_of JNull eq_refl); [reflexivity|].
    now apply by_value_unknown. }
  destruct (dict_get "message_type" data ≫= MessageType_of) as [mt|];
    cbn [mbind option_bind]; [|reflexivity].
  destruct H as [H|H].
  { rewrite (Hget "source_agent" _ AgentType_of JNull eq_refl); [reflexivity|].
    now apply by_value_unknown. }
  destruct (dict_get "source_agent" data ≫= AgentType_of) as [src|];
    cbn [mbind option_bind]; [|reflexivity].
  destruct H as [H|H].
  { rewrite (Hget "target_agent" _ AgentType_of JNull eq_refl); [reflexivity|].
    now apply by_value_unknown. }
  destruct (dict_get "target_agent" data ≫= AgentType_of) as [tgt|];
    cbn [mbind option_bind]; [|reflexivity].
  destruct H as [H|[Ht H]].
  - destruct (if truthy (get data "task_type" JNull) then _ else _) as [kind|];
      cbn [mbind option_bind]; [|reflexivity].
    destruct (dict_get "payload" data ≫= as_dict) as [pl|];
      cbn [mbind option_bind]; [|reflexivity].
    destruct (as_str (get data "correlation_id" (JStr EmptyString))) as [cid|];
      cbn [mbind option_bind]; [|reflexivity].
    unfold Priority_of. now rewrite by_value_unknown.
  - rewrite Ht.
    rewrite (Hget "task_type" _ TaskType_of JNull eq_refl); [reflexivity|].
    now apply by_value_unknown.
Qed.

Lemma falsy_valid (v : json) : truthy v = false -> valid v = true.
Proof. destruct v as [| | | |[|x l]|[|kv d]]; cbn; congruence. Qed.

(** X6. A task type that is false for Python (null, the empty string, 0) is
    read as no task type, not as an unknown member: the wire form of a
    message with any such value in [task_type] decodes to the message without
    task type. *)
Theorem from_json_falsy_task_type (m : AgentMessage) (v : json) :
  valid_message m = true ->
  truthy v = false ->
  from_json (dumps (JDict (dict_set "task_type" v (wire_fields m))))
  = Some (without_task_type m).
Proof.
  intros Hm Hv.
  assert (Hvalid : valid (JDict (dict_set "task_type" v (wire_fields m))) = true).
  { unfold valid_message in Hm. rewrite valid_JDict. unfold wire_fields.
    cbn [dict_set members_valid forallb map fst distinct existsb String.eqb Ascii.eqb
         Bool.eqb negb andb orb].
    now rewrite Hm, (falsy_valid v Hv). }
  rewrite from_json_dumps by assumption.
  destruct m as [mt src tgt pl kind id ts cid prio rc].
  unfold decode_fields, wire_fields, without_task_type.
  cbn [message_type source_agent target_agent payload task_type message_id
       timestamp correlation_id priority retry_count dict_set
       mbind option_bind as_dict getitem get dict_get String.eqb Ascii.eqb Bool.eqb
       as_str as_int].
  rewrite MessageType_of_value, !AgentType_of_value, Priority_of_value, Hv.
  reflexivity.
Qed.

End Wire.

(** * Further properties of responses and agents *)

Section Replies.
Import Json message_schema runtime messages agents outlook.
Context {S : Type}.

(** X7. The response to a response goes back where the first message came
    from and stays in the same conversation: source and target are those of
    the first message again, the task type and the priority are kept, and the
    correlation id is that of the first response (the first message must name
    a conversation or have an id for it). *)
Theorem create_response_chain (m : AgentMessage) (r1 r2 : dict) (s1 s2 : bool)
    (w : World) (st : S) :
  correlation_id m <> EmptyString \/ message_id m <> EmptyString ->
  exists w1 w2 a b,
    create_response m r1 s1 w st = (w1, st, Ok a) /\
    create_response a r2 s2 w1 st = (w2, st, Ok b) /\
    correlation_id a = (if String.eqb (correlation_id m) EmptyString
                        then message_id m else correlation_id m) /\
    correlation_id b = correlation_id a /\
    source_agent b = source_agent m /\ target_agent b = target_agent m /\
    task_type b = task_type m /\ priority b = priority m /\
    retry_count b = 0%Z /\
    uuid_calls w2 = 2 + uuid_calls w.
Proof.
  intros Hm. unfold create_response. rewrite new_AgentMessage_run.
  eexists _, _, _, _. split; [reflexivity|].
  rewrite new_AgentMessage_run. split; [reflexivity|]. cbn.
  destruct (String.eqb (correlation_id m) EmptyString) eqn:Hc; cbn.
  - apply String.eqb_eq in Hc. destruct Hm as [Hm|Hm]; [congruence|].
    apply String.eqb_neq in Hm. rewrite Hm. cbn. repeat split.
  - rewrite Hc. cbn. repeat split.
Qed.

(** X8. [handle_message] never raises and answers task requests and
    heartbeats only. Its answer is addressed to the sender of the message and
    takes one identifier; for the other message types nothing is made and the
    world is left as it was. *)
Theorem handle_message_answers_sender (agent : BaseAgent) (m : AgentMessage)
    (w : World) (st : S) :
  exists w' r,
    handle_message agent m w st = (w', st, Ok r) /\
    match r with
    | Some response =>
        answerable (message_type m) = true /\
        target_agent response = source_agent m /\
        message_id response = uuid4 w (uuid_calls w) /\
        uuid_calls w' = Datatypes.S (uuid_calls w) /\ trace w' = trace w
    | None => answerable (message_type m) = false /\ w' = w
    end.
Proof.
  unfold handle_message.
  destruct (message_type m) eqn:Hm;
    try (exists w, None; split; [reflexivity|]; split; reflexivity).
  - unfold try_except, call_process_task, create_response, mbind, Py_bind, bind.
    destruct (process_task agent (task_type m) (payload m)) as [result|e];
      rewrite new_AgentMessage_run; eexists _, _; (split; [reflexivity|]);
      cbn; repeat split.
  - unfold mbind, Py_bind, bind. rewrite new_AgentMessage_run.
    eexists _, _. split; [reflexivity|]. cbn. repeat split.
Qed.

(** X9. When [process_task] returns, the answer to a task request is a
    [task_response] whose payload holds the result under "result" and true
    under "success". It is sent in the name of the agent the request was
    addressed to, which need not be the agent that handled it, and
    [process_task] got the task type and the payload of the request. *)
Theorem handle_message_success (agent : BaseAgent) (m : AgentMessage) (result : dict)
    (w : World) (st : S) :
  message_type m = TASK_REQUEST ->
  process_task agent (task_type m) (payload m) = Ok result ->
  exists w' response,
    handle_message agent m w st = (w', st, Ok (Some response)) /\
    message_type response = TASK_RESPONSE /\
    payload response = [("success", JBool true); ("result", JDict result)] /\
    get (payload response) "result" (JDict (payload response)) = JDict result /\
    source_agent response = target_agent m /\
    task_type response = task_type m /\
    priority response = priority m /\
    correlation_id response = (if String.eqb (correlation_id m) EmptyString
                               then message_id m else correlation_id m).
Proof.
  intros Hm Hres. unfold handle_message. rewrite Hm.
  unfold try_except, call_process_task, create_response, mbind, Py_bind, bind.
  rewrite Hres, new_AgentMessage_run.
  eexists _, _. split; [reflexivity|]. cbn.
  repeat split. now destruct (String.eqb (correlation_id m) EmptyString).
Qed.

(** X10. The answer to a heartbeat is a [status_update] from the agent
    itself, whatever agent the heartbeat was addressed to. It names no
    conversation: the correlation id is empty even when the heartbeat had
    one, there is no task type, the priority is medium, and [process_task] has
    no part in it. *)
Theorem handle_message_heartbeat (agent : BaseAgent) (m : AgentMessage)
    (w : World) (st : S) :
  message_type m = HEARTBEAT ->
  exists w' response,
    handle_message agent m w st = (w', st, Ok (Some response)) /\
    message_type response = STATUS_UPDATE /\
    source_agent response = agent_type agent /\
    target_agent response = source_agent m /\
    payload response
    = [("status", JStr "alive"); ("agent", JStr (AgentType_value (agent_type agent)))] /\
    task_type response = None /\
    correlation_id response = EmptyString /\
    priority response = MEDIUM.
Proof.
  intros Hm. unfold handle_message. rewrite Hm.
  unfold mbind, Py_bind, bind. rewrite new_AgentMessage_run.
  eexists _, _. split; [reflexivity|]. cbn. repeat split.
Qed.

End Replies.

(** * Further properties of the transport *)

Section Broker.
Import Json message_schema runtime messages message_queue observations outlook.

Lemma queue_of_apart (a b : AgentType) (name : string) :
  queue_of a = Some name -> queue_of b = Some name -> a = b.
Proof. destruct a, b; cbn; intros Ha Hb; congruence. Qed.

(** What [send_message] leaves of the world. *)
Lemma send_message_trace (m : AgentMessage) (w : World) (q : MessageQueue) :
  exists name,
    queue_of (target_agent m) = Some name /\
    send_message m w q
    = (match channel q with
       | Some _ => log (published m name (pika w (pika_calls w))) (answered w)
       | None => w
       end, q, Ok (send_ok w q)).
Proof.
  unfold send_message, send_ok, published.
  destruct (queue_of_known (target_agent m)) as (name & Hq & Hn).
  exists name. split; [exact Hq|].
  repeat progress (autounfold with py; cbn -[queue_of]).
  destruct (channel q) as [c|]; [|reflexivity].
  rewrite Hq, Hn. run. answer; reflexivity.
Qed.

(** X11. [send_message] returns in every case and leaves the queue object as
    it was. Without a channel nothing is asked of the broker. With one,
    exactly one call is made: the message is published on the default
    exchange with the queue of its target as routing key, its wire form as
    body, its correlation id, and its priority as a number; no other agent
    has that queue; the result tells whether the call returned. *)
Theorem send_message_publishes (m : AgentMessage) (w : World) (q : MessageQueue) :
  exists w' name,
    send_message m w q = (w', q, Ok (send_ok w q)) /\
    queue_of (target_agent m) = Some name /\
    (forall a, queue_of a = Some name -> a = target_agent m) /\
    match channel q with
    | None => w' = w /\ send_ok w q = false
    | Some _ =>
        trace w' = trace w ++ [published m name (pika w (pika_calls w))] /\
        pika_calls w' = Datatypes.S (pika_calls w) /\
        send_ok w q = returned (pika w (pika_calls w))
    end.
Proof.
  destruct (send_message_trace m w q) as (name & Hq & Hrun).
  eexists _, name. split; [exact Hrun|]. split; [exact Hq|].
  split; [intros a Ha; exact (queue_of_apart _ _ _ Ha Hq)|].
  unfold send_ok. destruct (channel q) as [c|]; [|split; reflexivity].
  cbn. repeat split.
Qed.

(** X12. With no attempt to make, [connect] returns false at once: nothing
    is asked of the broker, nothing is slept, the queue object is as it
    was. *)
Theorem connect_no_attempts (max_retries retry_delay : Z) (w : World) (q : MessageQueue) :
  (max_retries <= 0)%Z ->
  connect max_retries retry_delay w q = (w, q, Ok false).
Proof.
  intros H. unfold connect.
  replace (Z.to_nat max_retries) with 0 by lia. reflexivity.
Qed.

(** One attempt sets the handles it gets and clears none. *)
Lemma connect_once_handles (w : World) (q : MessageQueue) :
  exists w' q' r,
    connect_once w q = (w', q', r) /\
    config q' = config q /\
    (is_Some (connection q) -> is_Some (connection q')) /\
    (is_Some (channel q) -> is_Some (channel q')) /\
    (forall b, r = Ok b -> b = true /\ is_Some (connection q') /\ is_Some (channel q')).
Proof.
  unfold connect_once. run.
  repeat (answer;
          [|eexists _, _, _; split; [reflexivity|]; cbn;
            repeat split; eauto; discriminate]).
  eexists _, _, _. split; [reflexivity|]. cbn.
  repeat split; eauto. congruence.
Qed.

Lemma connect_from_handles (max_retries retry_delay : Z) (attempts : list nat) :
  forall (w : World) (q : MessageQueue),
    exists w' q' r,
      connect_from attempts max_retries retry_delay w q = (w', q', r) /\
      config q' = config q /\
      (is_Some (connection q) -> is_Some (connection q')) /\
      (is_Some (channel q) -> is_Some (channel q')) /\
      (r = Ok true -> is_Some (connection q') /\ is_Some (channel q')).
Proof.
  induction attempts as [|attempt rest IH]; intros w q.
  - exists w, q, (Ok false). cbn. repeat split; try tauto; discriminate.
  - destruct (connect_once_handles w q) as (w1 & q1 & r1 & Hrun & Hc & Hconn & Hchan & Hok).
    cbn [connect_from].
    unfold mbind at 1, Py_bind at 1, bind at 1, try_except at 1.
    unfold mbind at 1, Py_bind at 1, bind at 1. rewrite Hrun.
    destruct r1 as [b|e].
    + destruct (Hok b eq_refl) as (-> & H1 & H2).
      exists w1, q1, (Ok true). cbn. repeat split; tauto.
    + destruct (is_AMQPConnectionError e).
      * assert (Hgo : forall w2, exists w' q' r,
                   connect_from rest max_retries retry_delay w2 q1 = (w', q', r) /\
                   config q' = config q /\
                   (is_Some (connection q) -> is_Some (connection q')) /\
                   (is_Some (channel q) -> is_Some (channel q')) /\
                   (r = Ok true -> is_Some (connection q') /\ is_Some (channel q'))).
        { intros w2.
          destruct (IH w2 q1) as (w' & q' & r & Hrest & Hc' & Hconn' & Hchan' & Hok').
          exists w', q', r. split; [exact Hrest|]. split; [congruence|].
          repeat split; tauto. }
        destruct (Z.of_nat attempt <? max_retries - 1)%Z; run; [|apply Hgo].
        destruct (retry_delay <? 0)%Z; run; [|apply Hgo].
        eexists w1, q1, _. split; [reflexivity|].
        repeat split; try tauto; discriminate.
      * exists w1, q1, (Raise e). split; [reflexivity|].
        repeat split; try tauto; discriminate.
Qed.

(** X13. [connect] never clears a handle and never touches the
    configuration, however it ends. When it returns true the connection and
    the channel are set, so that a send that follows is put to the broker
    and tells its answer. *)
Theorem connect_handles (max_retries retry_delay : Z) (w : World) (q : MessageQueue) :
  exists w' q' r,
    connect max_retries retry_delay w q = (w', q', r) /\
    config q' = config q /\
    (is_Some (connection q) -> is_Some (connection q')) /\
    (is_Some (channel q) -> is_Some (channel q')) /\
    (r = Ok true ->
     is_Some (connection q') /\ is_Some (channel q') /\
     forall m, exists w'',
       send_message m w' q' = (w'', q', Ok (returned (pika w' (pika_calls w'))))).
Proof.
  unfold connect.
  destruct (connect_from_handles max_retries retry_delay (seq 0 (Z.to_nat max_retries)) w q)
    as (w' & q' & r & Hrun & Hc & Hconn & Hchan & Hok).
  exists w', q', r. split; [exact Hrun|]. split; [exact Hc|].
  split; [exact Hconn|]. split; [exact Hchan|].
  intros Hr. destruct (Hok Hr) as [H1 H2]. split; [exact H1|]. split; [exact H2|].
  intros m. destruct (send_message_run m w' q') as (w'' & Hsend & _).
  exists w''. rewrite Hsend. unfold send_ok, returned.
  destruct H2 as [c ->]. reflexivity.
Qed.

(** X14. With a channel, [get_queue_stats] asks four times, once for the
    queue of each agent in the order of the table, each time passively, so
    that no queue is made by asking; a question that raises does not stop the
    ones after it. The mapping has the four identities as keys, in that
    order. Without a channel nothing is asked. *)
Theorem get_queue_stats_passive (w : World) (q : MessageQueue) :
  exists w' stats tr,
    get_queue_stats w q = (w', q, Ok stats) /\
    trace w' = trace w ++ tr /\
    match channel q with
    | Some _ =>
        Forall2 (fun ev name => exists r, ev = Pika (queue_declare name false true) r)
          tr (map snd AGENT_QUEUES) /\
        map fst stats = map AgentType_value (map fst AGENT_QUEUES) /\
        pika_calls w' = 4 + pika_calls w
    | None => tr = [] /\ w' = w
    end.
Proof.
  unfold get_queue_stats. run. destruct (channel q) as [c|]; run.
  - do 4 answer;
      (eexists _, _, _; split; [reflexivity|]; cbn; rewrite <- ?app_assoc; cbn;
       split; [reflexivity|]; split; [|split; reflexivity];
       repeat constructor; eexists; reflexivity).
  - exists w, [], []. rewrite app_nil_r. repeat split.
Qed.

End Broker.

(** * Further properties of the orchestrator *)

Section Tracking.
Import Json message_schema runtime messages message_queue observations orchestrator outlook.

Lemma calls_in_app tr1 tr2 : calls_in (tr1 ++ tr2) = calls_in tr1 ++ calls_in tr2.
Proof.
  induction tr1 as [|[| |] tr1 IH]; cbn; rewrite ?IH; reflexivity.
Qed.

Lemma _handle_response_eq (m : AgentMessage) (w : World) (o : Orchestrator) :
  _handle_response m w o
  = (called_back m w o, handled m w o,
     match response_handlers o !! correlation_id m with
     | Some handler => handler_run handler m
     | None => Ok tt
     end).
Proof.
  unfold _handle_response, handled, resolved, setattr, called_back, stamped. run.
  destruct o as [q objs tbl hs]. cbn.
  destruct (tbl !! correlation_id m) as [task|] eqn:Ht; run.
  - destruct (message_type m); run;
      unfold set_objects, set_response_handlers; cbn;
      rewrite ?alter_alter;
      (destruct (hs !! correlation_id m) as [h|] eqn:Hh; run;
       [|rewrite (delete_id hs (correlation_id m) Hh)]; reflexivity).
  - destruct (hs !! correlation_id m) as [h|] eqn:Hh; run;
      [|rewrite (delete_id hs (correlation_id m) Hh)]; reflexivity.
Qed.


(** One turn of the listener, and the loop before its last message. *)
Lemma listener_turn_eq (m : AgentMessage) (w : World) (o : Orchestrator) :
  exists w',
    try_except (_handle_response m) Exception (fun e => sleep 1) w o
    = (w', handled m w o, Ok tt) /\
    calls_in (trace w') = calls_in (trace w) /\
    utcnow w' = utcnow w /\
    clock_calls w' = clock_calls (stamped m w o).
Proof.
  unfold try_except. rewrite _handle_response_eq.
  unfold called_back, stamped.
  destruct (response_handlers o !! correlation_id m) as [h|].
  - destruct (handler_run h m) as [[]|e]; cbn [Exception];
      (eexists; split; [reflexivity|]);
      destruct (tasks o !! correlation_id m); cbn;
      rewrite ?calls_in_app, ?app_nil_r; repeat split.
  - eexists; split; [reflexivity|].
    destruct (tasks o !! correlation_id m); cbn; repeat split.
Qed.


Lemma deliver_app (pre post : list AgentMessage) :
  forall (w : World) (o : Orchestrator),
    exists w1 o1,
      deliver pre w o = (w1, o1, Ok tt) /\
      deliver (pre ++ post) w o = deliver post w1 o1.
Proof.
  induction pre as [|m pre IH]; intros w o.
  - exists w, o. split; reflexivity.
  - destruct (listener_turn_eq m w o) as (w0 & Hrun & _).
    destruct (IH w0 (handled m w o)) as (w1 & o1 & Hpre & Happ).
    exists w1, o1. cbn [deliver app]. unfold mbind, Py_bind, bind. rewrite Hrun.
    split; assumption.
Qed.

(** X16. The last message decides. Whatever the listener handled before,
    callbacks that raised included, a [task_response] or [error] for a
    recorded task sets its status and result, also when the task was settled
    already: a late error turns a completed task into a failed one. The
    identity of the task and its time of submission stay. *)
Theorem deliver_last_settles (pre : list AgentMessage) (m : AgentMessage)
    (w : World) (o : Orchestrator) (task : nat) (t : TaskStatus) :
  tasks o !! correlation_id m = Some task ->
  objects o !! task = Some t ->
  settles (message_type m) = true ->
  exists w' o' t',
    deliver (pre ++ [m]) w o = (w', o', Ok tt) /\
    tasks o' !! correlation_id m = Some task /\
    objects o' !! task = Some t' /\
    status t' = status_from m /\ result t' = result_from m /\
    task_id t' = task_id t /\ submitted_at t' = submitted_at t /\
    task_type t' = task_type t /\ target_agent t' = target_agent t.
Proof.
  intros Htask Hobj Hm.
  assert (Hkeep : forall ms w0 o0 t0,
             tasks o0 = tasks o -> objects o0 !! task = Some t0 ->
             task_id t0 = task_id t /\ submitted_at t0 = submitted_at t /\
             task_type t0 = task_type t /\ target_agent t0 = target_agent t ->
             exists w1 o1 t1,
               deliver ms w0 o0 = (w1, o1, Ok tt) /\ tasks o1 = tasks o /\
               objects o1 !! task = Some t1 /\
               (task_id t1 = task_id t /\ submitted_at t1 = submitted_at t /\
                task_type t1 = task_type t /\ target_agent t1 = target_agent t)).
  { induction ms as [|m0 ms IH]; intros w0 o0 t0 Ht Ho Hsame.
    - exists w0, o0, t0. repeat split; tauto.
    - destruct (listener_turn_eq m0 w0 o0) as (w1 & Hrun & _).
      cbn [deliver]. unfold mbind, Py_bind, bind. rewrite Hrun.
      destruct (tasks o0 !! correlation_id m0) as [task0|] eqn:H0.
      + destruct (decide (task0 = task)) as [->|Hne].
        * apply (IH w1 (handled m0 w0 o0)
                   (set_completed_at (utcnow w0 (clock_calls w0)) (resolved m0 t0)));
            [exact Ht| |].
          { cbn. rewrite H0, list_lookup_alter_eq, Ho. reflexivity. }
          { unfold resolved. destruct (message_type m0); cbn; tauto. }
        * apply (IH w1 (handled m0 w0 o0) t0); [exact Ht| |exact Hsame].
          cbn. rewrite H0, list_lookup_alter_ne by assumption. exact Ho.
      + apply (IH w1 (handled m0 w0 o0) t0); [exact Ht| |exact Hsame].
        cbn. rewrite H0. exact Ho. }
  destruct (deliver_app pre [m] w o) as (w1 & o1 & Hpre & Happ).
  destruct (Hkeep pre w o t eq_refl Hobj) as (w1' & o1' & t1 & Hpre' & Ht1 & Ho1 & Hsame);
    [tauto|].
  rewrite Hpre in Hpre'. injection Hpre' as <- <-.
  destruct (listener_turn_eq m w1 o1) as (w2 & Hrun & _).
  exists w2, (handled m w1 o1), (set_completed_at (utcnow w1 (clock_calls w1)) (resolved m t1)).
  split.
  { rewrite Happ. cbn [deliver]. unfold mbind, Py_bind, bind. rewrite Hrun. reflexivity. }
  cbn [tasks objects handled]. rewrite Ht1, Htask.
  split; [reflexivity|]. split.
  { rewrite list_lookup_alter_eq, Ho1. reflexivity. }
  unfold resolved, status_from, result_from.
  destruct (message_type m); try discriminate; cbn; tauto.
Qed.


End Tracking.

(** * Properties of the table of tasks *)

Section Table.
Import Json message_schema runtime messages message_queue observations orchestrator outlook.

(** X18. [clear_completed_tasks] keeps exactly the entries whose task is
    neither completed nor failed. The task objects stay, and so do the
    callbacks, also those registered for tasks that are removed; clearing a
    second time changes nothing more. *)
Theorem clear_completed_tasks_keeps_live (w : World) (o : Orchestrator) :
  exists o',
    clear_completed_tasks w o = (w, o', Ok tt) /\
    mq o' = mq o /\ objects o' = objects o /\
    response_handlers o' = response_handlers o /\
    (forall id task,
       tasks o' !! id = Some task <-> tasks o !! id = Some task /\ live o task = true) /\
    clear_completed_tasks w o' = (w, o', Ok tt).
Proof.
  eexists. split; [apply clear_completed_tasks_run|].
  cbn [mq objects response_handlers tasks set_tasks].
  split; [reflexivity|]. split; [reflexivity|]. split; [reflexivity|]. split.
  { intros id task. apply map_lookup_filter_Some. }
  rewrite clear_completed_tasks_run. unfold set_tasks. cbn. do 2 f_equal. f_equal.
  apply map_filter_id. intros id task H.
  apply map_lookup_filter_Some in H as [_ H]. exact H.
Qed.

(** X19. [submit_task] adds one object and one entry and leaves the rest:
    the entries and the callbacks under other ids, the objects made before,
    the queue object. Without [on_complete] no callback is registered. *)
Theorem submit_task_keeps_others target kind pl prio on_complete
    (w : World) (o : Orchestrator) :
  exists w' o' r,
    submit_task target kind pl prio on_complete w o = (w', o', r) /\
    mq o' = mq o /\
    length (objects o') = Datatypes.S (length (objects o)) /\
    (forall task, task < length (objects o) -> objects o' !! task = objects o !! task) /\
    (forall id, id <> uuid4 w (uuid_calls w) ->
       tasks o' !! id = tasks o !! id /\
       response_handlers o' !! id = response_handlers o !! id) /\
    (on_complete = None -> response_handlers o' = response_handlers o) /\
    uuid_calls w' = Datatypes.S (uuid_calls w).
Proof.
  destruct (submit_task_run target kind pl prio on_complete w o) as (w' & Hrun & _).
  pose proof Hrun as Hw.
  unfold submit_task in Hw. unfold mbind at 1, Py_bind at 1, bind at 1 in Hw.
  rewrite track_task_run in Hw.
  unfold mbind at 1, Py_bind at 1, bind at 1, self_mq, within in Hw.
  destruct (send_message_run (request_of target kind pl prio w)
              (read (read (drawn w))) (mq o)) as (w2 & Hsend & _ & Hu).
  change (mq (tracked target kind on_complete w o)) with (mq o) in Hw.
  rewrite Hsend in Hw.
  assert (Hcalls : uuid_calls w' = uuid_calls w2).
  { destruct (send_ok (read (read (drawn w))) (mq o)); revert Hw; run;
      intros Hw; injection Hw as <-; reflexivity. }
  eexists w', _, _. split; [exact Hrun|].
  cbn [mq objects tasks response_handlers set_objects tracked].
  split; [reflexivity|]. split.
  { rewrite length_alter, length_app. cbn. lia. }
  split.
  { intros task Htask. rewrite list_lookup_alter_ne by lia.
    now apply lookup_app_l. }
  split.
  { intros id Hid. split; [now apply lookup_insert_ne|].
    destruct on_complete; [now apply lookup_insert_ne|reflexivity]. }
  split; [now intros ->|].
  rewrite Hcalls, Hu. reflexivity.
Qed.


(** X21. After [clear_completed_tasks] a settled task is no longer known:
    [get_task_status] finds nothing under its id, and a response that comes
    late for it changes no task object. A callback still registered under the
    id is called all the same, since clearing leaves the callbacks. *)
Theorem cleared_task_late_response (m : AgentMessage) (w : World) (o : Orchestrator)
    (task : nat) (t : TaskStatus) :
  tasks o !! correlation_id m = Some task ->
  objects o !! task = Some t ->
  terminal (status t) = true ->
  exists o1 w' o' r,
    clear_completed_tasks w o = (w, o1, Ok tt) /\
    get_task_status (correlation_id m) w o1 = (w, o1, Ok None) /\
    _handle_response m w o1 = (w', o', r) /\
    objects o' = objects o /\
    tasks o' !! correlation_id m = None /\
    clock_calls w' = clock_calls w /\
    match response_handlers o !! correlation_id m with
    | Some handler =>
        trace w' = trace w ++ [Invoke (handler_name handler) m] /\
        r = handler_run handler m
    | None => trace w' = trace w /\ r = Ok tt
    end.
Proof.
  intros Htask Hobj Hterm.
  assert (Hgone : filter (fun kv : string * nat => live o kv.2 = true) (tasks o)
                  !! correlation_id m = None).
  { apply map_lookup_filter_None. right. intros task' Htask'.
    assert (task' = task) as -> by congruence.
    unfold live. cbn [snd]. rewrite Hobj, Hterm. discriminate. }
  eexists _, _, _, _. split; [apply clear_completed_tasks_run|].
  split.
  { unfold get_task_status. run. now rewrite Hgone. }
  split; [apply _handle_response_eq|].
  cbn [objects tasks response_handlers handled set_tasks].
  rewrite Hgone. split; [reflexivity|]. split; [reflexivity|].
  unfold called_back, stamped. cbn [tasks response_handlers set_tasks].
  rewrite Hgone.
  destruct (response_handlers o !! correlation_id m); repeat split.
Qed.

End Table.

(** * Properties of health checks, delegation and workflows *)

Section Supervision.
Import Json message_schema runtime messages message_queue agents observations orchestrator.
Import delegation supervision outlook.

Lemma get_queue_stats_eq (w : World) (q : MessageQueue) (c : nat) :
  channel q = Some c ->
  exists w',
    get_queue_stats w q = (w', q, Ok (inspections w (pika_calls w))) /\
    pika w' = pika w /\ uuid_calls w' = uuid_calls w /\
    pika_calls w' = 4 + pika_calls w /\
    exists tr,
      trace w' = trace w ++ tr /\ length tr = 4 /\
      Forall2 (fun ev name => exists r, ev = Pika (queue_declare name false true) r)
        tr (map snd AGENT_QUEUES).
Proof.
  intros Hc. unfold get_queue_stats, inspections. run. rewrite Hc. run.
  replace (pika_calls w + 0) with (pika_calls w) by lia.
  replace (pika_calls w + 1) with (Datatypes.S (pika_calls w)) by lia.
  replace (pika_calls w + 2) with (Datatypes.S (Datatypes.S (pika_calls w))) by lia.
  replace (pika_calls w + 3)
    with (Datatypes.S (Datatypes.S (Datatypes.S (pika_calls w)))) by lia.
  do 4 answer;
    (eexists; split; [reflexivity|]; cbn; repeat split;
     eexists; rewrite <- ?app_assoc; cbn; split; [reflexivity|];
     split; [reflexivity|]; repeat constructor; eexists; reflexivity).
Qed.

Lemma grade_inspections {S : Type} (w w' : World) (first : nat) (st : S) :
  grade (inspections w first) [] w' st = (w', st, Ok (verdicts w first)).
Proof.
  unfold inspections, verdicts. cbn [map AGENT_QUEUES fst position grade].
  unfold inspected, verdict, stats_entry.
  destruct (pika w (first + 0)), (pika w (first + 1)), (pika w (first + 2)),
    (pika w (first + 3)); reflexivity.
Qed.

(** X22. [check_agent_health] returns and leaves the orchestrator as it
    was. Without a channel the report is empty. With one, the report has an
    entry for each of the four identities, the orchestrator's own queue
    included, in the order of the table: "healthy" when the inspection of the
    queue returned a positive number of consumers, "no_consumers" when it
    returned none or raised. The answers to the three heartbeats have no part
    in it. *)
Theorem check_agent_health_verdicts (w : World) (o : Orchestrator) :
  exists w' health,
    check_agent_health w o = (w', o, Ok health) /\
    uuid_calls w' = 3 + uuid_calls w /\
    match channel (mq o) with
    | None => health = [] /\ trace w' = trace w
    | Some _ =>
        health = verdicts w (3 + pika_calls w) /\
        (forall a, dict_get (AgentType_value a) health
                   = Some (verdict (pika w (3 + pika_calls w + position a)))) /\
        pika_calls w' = 7 + pika_calls w
    end.
Proof.
  destruct o as [q objs tbl hs].
  unfold check_agent_health. cbn [for_each].
  unfold mbind, Py_bind, bind, self_mq, within. cbn [mq].
  rewrite new_AgentMessage_run; cbn [mq].
  match goal with |- context [send_message ?m ?w1 q] =>
    destruct (send_message_trace m w1 q) as (n1 & _ & ->) end.
  unfold set_mq at 1. cbn [mq objects tasks response_handlers mret Py_ret ret].
  rewrite new_AgentMessage_run; cbn [mq].
  match goal with |- context [send_message ?m ?w1 q] =>
    destruct (send_message_trace m w1 q) as (n2 & _ & ->) end.
  unfold set_mq at 1. cbn [mq objects tasks response_handlers mret Py_ret ret].
  rewrite new_AgentMessage_run; cbn [mq].
  match goal with |- context [send_message ?m ?w1 q] =>
    destruct (send_message_trace m w1 q) as (n3 & _ & ->) end.
  unfold set_mq at 1. cbn [mq objects tasks response_handlers mret Py_ret ret].
  destruct (channel q) as [c|] eqn:Hc.
  - match goal with |- context [get_queue_stats ?w3 q] =>
      destruct (get_queue_stats_eq w3 q c Hc) as (w4 & -> & Hp & Hu & Hn & _)
    end.
    unfold set_mq. cbn [mq objects tasks response_handlers].
    rewrite grade_inspections.
    eexists _, _. split; [reflexivity|]. split; [exact Hu|].
    split; [reflexivity|]. split; [|exact Hn].
    intros []; reflexivity.
  - unfold get_queue_stats. run. rewrite Hc. run.
    eexists _, _. split; [reflexivity|]. repeat split.
Qed.

(** X23. With a channel, [check_agent_health] first publishes a heartbeat
    from the orchestrator to each of the three agents, in that order and each
    on the agent's own queue, and none to itself; four inspections follow and
    nothing else. *)
Theorem check_agent_health_heartbeats (w : World) (o : Orchestrator) (c : nat) :
  channel (mq o) = Some c ->
  exists w' health beats rest,
    check_agent_health w o = (w', o, Ok health) /\
    trace w' = trace w ++ beats ++ rest /\
    Forall2 (fun ev agent =>
               exists id now name r,
                 queue_of agent = Some name /\
                 ev = published (heartbeat_for agent id now) name r)
      beats [LOCAL_CLAUDE; LOCAL_OPENAI; CLOUD_GEMINI] /\
    length rest = 4 /\
    Forall2 (fun ev name => exists r, ev = Pika (queue_declare name false true) r)
      rest (map snd AGENT_QUEUES).
Proof.
  intros Hc. destruct o as [q objs tbl hs]. cbn [mq] in Hc.
  unfold check_agent_health. cbn [for_each].
  unfold mbind, Py_bind, bind, self_mq, within. cbn [mq].
  rewrite new_AgentMessage_run; cbn [mq].
  match goal with |- context [send_message ?m ?w1 q] =>
    destruct (send_message_trace m w1 q) as (n1 & Hq1 & ->) end.
  unfold set_mq at 1. cbn [mq objects tasks response_handlers mret Py_ret ret].
  rewrite new_AgentMessage_run; cbn [mq].
  match goal with |- context [send_message ?m ?w1 q] =>
    destruct (send_message_trace m w1 q) as (n2 & Hq2 & ->) end.
  unfold set_mq at 1. cbn [mq objects tasks response_handlers mret Py_ret ret].
  rewrite new_AgentMessage_run; cbn [mq].
  match goal with |- context [send_message ?m ?w1 q] =>
    destruct (send_message_trace m w1 q) as (n3 & Hq3 & ->) end.
  unfold set_mq at 1. cbn [mq objects tasks response_handlers mret Py_ret ret].
  rewrite Hc.
  match goal with |- context [get_queue_stats ?w3 q] =>
    destruct (get_queue_stats_eq w3 q c Hc) as (w4 & -> & _ & _ & _ & tr & Htr & Hlen & Hall)
  end.
  unfold set_mq. cbn [mq objects tasks response_handlers].
  rewrite grade_inspections.
  eexists _, _, [_; _; _], tr. split; [reflexivity|]. split.
  { rewrite Htr. cbn [trace log answered read drawn].
    rewrite <- !app_assoc. cbn [app]. reflexivity. }
  split; [|split; assumption].
  repeat constructor; eexists _, _, _, _; (split; [eassumption|reflexivity]).
Qed.

End Supervision.

(** * Properties of delegation, workflows and the whole exchange *)

Section Exchange.
Import Json message_schema runtime messages message_queue agents observations orchestrator.
Import delegation supervision outlook.

(** X24. An agent without a queue object sends nothing and makes nothing:
    [send_task] returns false and the world is as before. With one, it makes
    a [task_request] in its own name with the given correlation id (empty by
    default, so the request names no conversation of its own) and medium
    priority, puts it to the queue object, and returns what [send_message]
    returns. *)
Theorem send_task_delegates (agent : BaseAgent) (target : AgentType) (kind : TaskType)
    (pl : dict) (cid : string) (w : World) (mq : option MessageQueue) :
  exists w' b,
    send_task agent target kind pl cid w mq = (w', mq, Ok b) /\
    match mq with
    | None => b = false /\ w' = w
    | Some q =>
        b = send_ok w q /\
        uuid_calls w' = Datatypes.S (uuid_calls w) /\
        match channel q with
        | None => trace w' = trace w
        | Some _ =>
            exists name,
              queue_of target = Some name /\
              trace w' = trace w ++
                [published (delegated agent target kind pl cid w) name (pika w (pika_calls w))]
        end
    end.
Proof.
  unfold send_task. destruct mq as [q|]; [|exists w, false; repeat split].
  unfold mbind, Py_bind, bind, self, within. rewrite new_AgentMessage_run.
  match goal with |- context [send_message ?m ?w1 q] =>
    destruct (send_message_trace m w1 q) as (name & Hq & ->) end.
  eexists _, _. split; [reflexivity|]. split; [reflexivity|].
  destruct (channel q) as [c|]; cbn; [|split; reflexivity].
  split; [reflexivity|]. exists name. split; [exact Hq|reflexivity].
Qed.

(** What [submit_task] leaves of the world. *)
Lemma submit_task_eq target kind pl prio on_complete (w : World) (o : Orchestrator) :
  exists name,
    queue_of target = Some name /\
    submit_task target kind pl prio on_complete w o
    = (match channel (mq o) with
       | Some _ => log (published (request_of target kind pl prio w) name
                          (pika w (pika_calls w)))
                     (answered (read (read (drawn w))))
       | None => read (read (drawn w))
       end,
       set_objects
         (alter (set_status (if send_ok w (mq o) then "processing" else "failed"))
            (length (objects o)) (objects o ++ [record_of target kind w]))
         (tracked target kind on_complete w o),
       Ok (if send_ok w (mq o) then uuid4 w (uuid_calls w) else EmptyString)).
Proof.
  unfold submit_task. unfold mbind at 1, Py_bind at 1, bind at 1.
  rewrite track_task_run.
  unfold mbind at 1, Py_bind at 1, bind at 1, self_mq, within.
  destruct (send_message_trace (request_of target kind pl prio w)
              (read (read (drawn w))) (mq o)) as (name & Hq & Hsend).
  exists name. split; [exact Hq|].
  change (mq (tracked target kind on_complete w o)) with (mq o).
  rewrite Hsend.
  change (send_ok (read (read (drawn w))) (mq o)) with (send_ok w (mq o)) in *.
  destruct (send_ok w (mq o)); run; destruct (channel (mq o)); reflexivity.
Qed.

(** X25. [submit_workflow] looks at the first step only. When its "agent"
    and "task" name members of the enumerations, the call is [submit_task]
    for that agent and task, with medium priority and no callback: the task
    is recorded, and the request that is published carries the initial
    input, the whole workflow and step number 0. The steps after the first
    are not looked at, so nothing they hold can make the call fail. *)
Theorem submit_workflow_first_step (first : dict) (rest : list dict) (initial_input : dict)
    (target : AgentType) (kind : TaskType) (w : World) (o : Orchestrator) :
  getitem first "agent" = Some (JStr (AgentType_value target)) ->
  getitem first "task" = Some (JStr (TaskType_value kind)) ->
  let id := uuid4 w (uuid_calls w) in
  let request :=
    request_of target kind (workflow_payload (first :: rest) initial_input) MEDIUM w in
  exists c w' o' task t,
    submit_workflow (first :: rest) initial_input = Some c /\
    c w o = (w', o', Ok (if send_ok w (mq o) then id else EmptyString)) /\
    tasks o' !! id = Some task /\ objects o' !! task = Some t /\
    target_agent t = target /\ task_type t = kind /\
    response_handlers o' = response_handlers o /\
    match channel (mq o) with
    | Some _ =>
        exists name,
          queue_of target = Some name /\
          trace w' = trace w ++ [published request name (pika w (pika_calls w))]
    | None => trace w' = trace w
    end.
Proof.
  intros Hagent Htask id request.
  unfold submit_workflow, step_entry.
  rewrite Hagent, Htask, AgentType_of_value, TaskType_of_value.
  destruct (submit_task_eq target kind (workflow_payload (first :: rest) initial_input)
              MEDIUM None w o) as (name & Hq & Hrun).
  eexists _, _, _, (length (objects o)), _. split; [reflexivity|].
  split; [exact Hrun|].
  cbn [tasks objects response_handlers set_objects tracked].
  split; [apply lookup_insert_eq|]. split; [apply lookup_new_object|].
  split; [reflexivity|]. split; [reflexivity|]. split; [reflexivity|].
  destruct (channel (mq o)); [|reflexivity].
  exists name. split; [exact Hq|reflexivity].
Qed.

Lemma step_entry_fails {E : Type} (lookup : json -> option E) (value : E -> string)
    (enum : string) (first : dict) (key : string) :
  (forall s, (forall e : E, s <> value e) -> lookup (JStr s) = None) ->
  names_no_member value first key ->
  exists e, step_entry lookup enum first key = fails e.
Proof.
  unfold step_entry, getitem. intros Hlookup [Hnone|(s & Hs & Hno)].
  - rewrite Hnone. eexists. reflexivity.
  - rewrite Hs, (Hlookup s Hno). eexists. reflexivity.
Qed.

Lemma lookup_no_member {E : Type} (members : list E) (value : E -> string) (s : string) :
  (forall e : E, s <> value e) -> by_value members value (JStr s) = None.
Proof. intros Hs. apply by_value_unknown. intros e [= He]. exact (Hs e He). Qed.

(** X26. [submit_workflow] with no step returns the empty string and does
    nothing. With a first step whose "agent" or "task" is missing, or is a
    string that is no member's value, it raises before anything is made: no
    identifier is drawn, no task is recorded and nothing is sent, unlike a
    [submit_task] whose send fails. This holds whatever the other entry of the
    step is, a string or not, and whatever the later steps hold. *)
Theorem submit_workflow_rejects_early (workflow : list dict) (initial_input : dict)
    (w : World) (o : Orchestrator) :
  match workflow with
  | [] =>
      exists c,
        submit_workflow [] initial_input = Some c /\ c w o = (w, o, Ok EmptyString)
  | first :: rest =>
      names_no_member AgentType_value first "agent" \/
      names_no_member TaskType_value first "task" ->
      exists c e,
        submit_workflow (first :: rest) initial_input = Some c /\
        c w o = (w, o, Raise e)
  end.
Proof.
  destruct workflow as [|first rest].
  - eexists. split; reflexivity.
  - intros Hbad. cbn [submit_workflow].
    destruct Hbad as [Hbad|Hbad].
    + destruct (step_entry_fails AgentType_of AgentType_value "AgentType" first "agent")
        as [e He]; [intros s; apply lookup_no_member | exact Hbad |].
      rewrite He. eexists _, _. split; reflexivity.
    + destruct (step_entry_fails TaskType_of TaskType_value "TaskType" first "task")
        as [e He]; [intros s; apply lookup_no_member | exact Hbad |].
      rewrite He.
      destruct (step_entry AgentType_of "AgentType" first "agent");
        eexists _, _; split; reflexivity.
Qed.

Lemma valid_response_payload (success : bool) (answer : dict) :
  valid (JDict answer) = true ->
  valid (JDict [("success", JBool success); ("result", JDict answer)]) = true.
Proof.
  intros H. rewrite valid_JDict.
  cbn [members_valid forallb map fst distinct existsb String.eqb Ascii.eqb Bool.eqb
       negb andb orb].
  now rewrite H.
Qed.

(** X27. A task from submission to settlement. With a payload that JSON can
    carry and a send that goes through, [submit_task] publishes a request
    that the agent's side reads back as it was written; [handle_message]
    answers it with a message for the orchestrator that names the task and
    is read back as written too; and [_handle_response] on that answer
    leaves the task, as [get_task_status] shows it, "completed" with the
    result of [process_task] when that returned, and "failed" with the error
    payload when it raised. *)
Theorem task_round_trip {S : Type} target kind pl prio on_complete (agent : BaseAgent)
    (w wa wo : World) (o : Orchestrator) (st : S) :
  valid (JDict pl) = true ->
  send_ok w (mq o) = true ->
  (forall answer, process_task agent (Some kind) pl = Ok answer ->
                  valid (JDict answer) = true) ->
  let id := uuid4 w (uuid_calls w) in
  let request := request_of target kind pl prio w in
  exists w1 o1 name r,
    submit_task target kind pl prio on_complete w o = (w1, o1, Ok id) /\
    queue_of target = Some name /\
    trace w1 = trace w ++
               [Pika (basic_publish EmptyString name (to_json request) id
                        (priority_hint prio)) r] /\
    from_json (to_json request) = Some request /\
    exists w2 response,
      handle_message agent request wa st = (w2, st, Ok (Some response)) /\
      message_schema.target_agent response = ORCHESTRATOR /\
      correlation_id response = id /\
      from_json (to_json response) = Some response /\
      exists w3 o2 r' task t,
        _handle_response response wo o1 = (w3, o2, r') /\
        get_task_status id w3 o2 = (w3, o2, Ok (Some task)) /\
        objects o2 !! task = Some t /\
        task_id t = id /\
        match process_task agent (Some kind) pl with
        | Ok answer => status t = "completed" /\ result t = JDict answer
        | Raise e =>
            status t = "failed" /\
            result t = JDict [("success", JBool false);
                              ("result", JDict [("error", JStr (str e))])]
        end.
Proof.
  intros Hpl Hsend Hans id request.
  destruct (submit_task_eq target kind pl prio on_complete w o) as (name & Hq & Hrun).
  rewrite Hsend in Hrun.
  assert (Hc : exists c, channel (mq o) = Some c).
  { unfold send_ok in Hsend. destruct (channel (mq o)) as [c|]; [eauto|discriminate]. }
  destruct Hc as [c Hc]. rewrite Hc in Hrun.
  eexists _, _, name, _. split; [exact Hrun|]. split; [exact Hq|].
  split; [reflexivity|].
  split; [now apply wire_round_trip|].
  unfold handle_message, try_except, call_process_task, create_response,
    mbind, Py_bind, bind.
  cbn [request request_of message_type message_schema.task_type payload].
  destruct (process_task agent (Some kind) pl) as [answer|e] eqn:Hp;
    rewrite new_AgentMessage_run;
    (eexists _, _; split; [reflexivity|]);
    cbn [message_schema.target_agent source_agent correlation_id message_id request_of];
    (split; [reflexivity|]);
    (split; [subst id; now destruct (String.eqb _ _)|]);
    (split; [apply wire_round_trip, valid_response_payload; auto|]);
    rewrite _handle_response_eq;
    (eexists _, _, _, (length (objects o)), _; split; [reflexivity|]);
    unfold get_task_status; run;
    assert (Hid : (if negb (String.eqb (uuid4 w (uuid_calls w)) EmptyString)
                   then uuid4 w (uuid_calls w) else uuid4 w (uuid_calls w))
                  = uuid4 w (uuid_calls w)) by (now destruct (String.eqb _ _));
    rewrite ?Hid, !lookup_insert_eq;
    (split; [reflexivity|]);
    rewrite list_lookup_alter_eq, lookup_new_object;
    (split; [reflexivity|]); split; try split; reflexivity.
Qed.

End Exchange.

(** * The further statements at sample values *)

Section Instances.
Import Json message_schema runtime messages message_queue agents orchestrator.
Import observations samples delegation supervision wire outlook examples.

Lemma to_json_all_fields_witness :
  valid_message sample_request = true /\
  loads (to_json sample_request) = Some (JDict (wire_fields sample_request)).
Proof.
  split; [reflexivity | apply (to_json_all_fields sample_request); reflexivity].
Defined.

Lemma to_json_injective_witness :
  valid_message sample_request = true /\
  to_json sample_request = to_json (set_correlation_id "job-123" sample_request) /\
  sample_request = set_correlation_id "job-123" sample_request.
Proof.
  split; [reflexivity|]. split; [reflexivity|].
  apply (to_json_injective sample_request (set_correlation_id "job-123" sample_request));
    reflexivity.
Defined.

Lemma from_json_missing_key_witness :
  valid (JDict truncated_fields) = true /\
  dict_get "source_agent" truncated_fields = None /\
  from_json (dumps (JDict truncated_fields)) = None.
Proof.
  split; [reflexivity|]. split; [reflexivity|].
  apply (from_json_missing_key truncated_fields "source_agent");
    [reflexivity | repeat constructor | reflexivity].
Defined.

Lemma from_json_defaults_witness :
  valid (JDict minimal_fields) = true /\
  dict_get "priority" minimal_fields = None /\
  from_json (dumps (JDict minimal_fields))
  = Some {| message_type := TASK_REQUEST; source_agent := ORCHESTRATOR;
            message_schema.target_agent := CLOUD_GEMINI; payload := [("q", JInt 1)];
            message_schema.task_type := None; message_id := "m-1";
            timestamp := EmptyString; correlation_id := EmptyString;
            priority := MEDIUM; retry_count := 0 |}.
Proof.
  split; [reflexivity|]. split; [reflexivity|].
  apply (from_json_defaults minimal_fields "m-1" TASK_REQUEST ORCHESTRATOR CLOUD_GEMINI
           [("q", JInt 1)]); try reflexivity.
  intros key Hkey. unfold optional_keys in Hkey.
  repeat (apply elem_of_cons in Hkey as [->|Hkey]; [reflexivity|]).
  inversion Hkey.
Defined.

Lemma from_json_unknown_member_witness :
  valid (JDict stray_fields) = true /\
  get stray_fields "target_agent" JNull = JStr "local_llama" /\
  from_json (dumps (JDict stray_fields)) = None.
Proof.
  split; [reflexivity|]. split; [reflexivity|].
  apply (from_json_unknown_member stray_fields); [reflexivity|].
  right. right. left. intros []; discriminate.
Defined.

Lemma from_json_falsy_task_type_witness :
  valid_message sample_request = true /\
  truthy (JStr EmptyString) = false /\
  from_json (dumps (JDict (dict_set "task_type" (JStr EmptyString)
                             (wire_fields sample_request))))
  = Some (without_task_type sample_request).
Proof.
  split; [reflexivity|]. split; [reflexivity|].
  apply (from_json_falsy_task_type sample_request (JStr EmptyString)); reflexivity.
Defined.

Lemma create_response_chain_witness :
  correlation_id sample_request <> EmptyString /\
  exists w1 w2 a b,
    create_response sample_request [("review", JStr "ok")] true quiet_world tt
    = (w1, tt, Ok a) /\
    create_response a [("thanks", JBool true)] true w1 tt = (w2, tt, Ok b) /\
    correlation_id b = "job-123" /\
    source_agent b = ORCHESTRATOR /\ message_schema.target_agent b = LOCAL_CLAUDE.
Proof.
  assert (Hne : correlation_id sample_request <> EmptyString) by discriminate.
  split; [exact Hne|].
  destruct (create_response_chain sample_request [("review", JStr "ok")]
              [("thanks", JBool true)] true true quiet_world tt (or_introl Hne))
    as (w1 & w2 & a & b & H1 & H2 & Ha & Hb & Hsrc & Htgt & _).
  exists w1, w2, a, b. split; [exact H1|]. split; [exact H2|].
  split; [rewrite Hb, Ha; reflexivity|]. split; assumption.
Defined.

Lemma handle_message_success_witness :
  message_type sample_request = TASK_REQUEST /\
  exists w' response,
    handle_message reviewing_agent sample_request quiet_world tt
    = (w', tt, Ok (Some response)) /\
    message_type response = TASK_RESPONSE /\
    correlation_id response = "job-123".
Proof.
  split; [reflexivity|].
  destruct (handle_message_success reviewing_agent sample_request _ quiet_world tt
              eq_refl eq_refl)
    as (w' & response & Hrun & Hty & _ & _ & _ & _ & _ & Hcid).
  exists w', response. split; [exact Hrun|]. split; [exact Hty|exact Hcid].
Defined.

Lemma handle_message_heartbeat_witness :
  message_type sample_heartbeat = HEARTBEAT /\
  exists w' response,
    handle_message reviewing_agent sample_heartbeat quiet_world tt
    = (w', tt, Ok (Some response)) /\
    source_agent response = LOCAL_CLAUDE /\
    message_schema.target_agent response = ORCHESTRATOR /\
    correlation_id response = EmptyString.
Proof.
  split; [reflexivity|].
  destruct (handle_message_heartbeat reviewing_agent sample_heartbeat quiet_world tt eq_refl)
    as (w' & response & Hrun & _ & Hsrc & Htgt & _ & _ & Hcid & _).
  exists w', response. repeat split; assumption.
Defined.

Lemma connect_no_attempts_witness :
  (0 <= 0)%Z /\
  message_queue.connect 0 5 refusing_world offline = (refusing_world, offline, Ok false).
Proof.
  split; [lia|]. apply (connect_no_attempts 0 5 refusing_world offline). lia.
Defined.

Lemma deliver_last_settles_witness :
  tasks waiting_twice !! correlation_id (failure_of "task-0") = Some 0 /\
  objects waiting_twice !! 0 = Some pending_review /\
  settles (message_type (failure_of "task-0")) = true /\
  exists w' o' t',
    deliver [answer_of TASK_RESPONSE "task-0"; failure_of "task-0"] quiet_world waiting_twice
    = (w', o', Ok tt) /\
    objects o' !! 0 = Some t' /\ status t' = "failed".
Proof.
  split; [reflexivity|]. split; [reflexivity|]. split; [reflexivity|].
  destruct (deliver_last_settles [answer_of TASK_RESPONSE "task-0"] (failure_of "task-0")
              quiet_world waiting_twice 0 pending_review eq_refl eq_refl eq_refl)
    as (w' & o' & t' & Hrun & _ & Hobj & Hst & _).
  exists w', o', t'. split; [exact Hrun|]. split; [exact Hobj|exact Hst].
Defined.

Lemma cleared_task_late_response_witness :
  tasks settled !! correlation_id (failure_of "task-0") = Some 0 /\
  objects settled !! 0 = Some (set_status "completed" pending_review) /\
  terminal (status (set_status "completed" pending_review)) = true /\
  exists o1 w' o',
    clear_completed_tasks quiet_world settled = (quiet_world, o1, Ok tt) /\
    _handle_response (failure_of "task-0") quiet_world o1 = (w', o', Ok tt) /\
    objects o' = objects settled /\
    trace w' = [Invoke "notify" (failure_of "task-0")].
Proof.
  split; [reflexivity|]. split; [reflexivity|]. split; [reflexivity|].
  destruct (cleared_task_late_response (failure_of "task-0") quiet_world settled 0
              (set_status "completed" pending_review) eq_refl eq_refl eq_refl)
    as (o1 & w' & o' & r & Hclear & _ & Hrun & Hobj & _ & _ & Hcb).
  cbn in Hcb. destruct Hcb as [Htr ->].
  exists o1, w', o'. split; [exact Hclear|]. split; [exact Hrun|].
  split; [exact Hobj|exact Htr].
Defined.


Lemma check_agent_health_heartbeats_witness :
  channel (mq waiting) = Some 1 /\
  exists w' health beats rest,
    check_agent_health one_consumer waiting = (w', waiting, Ok health) /\
    trace w' = trace one_consumer ++ beats ++ rest /\
    length beats = 3 /\ length rest = 4.
Proof.
  split; [reflexivity|].
  destruct (check_agent_health_heartbeats one_consumer waiting 1 eq_refl)
    as (w' & health & beats & rest & Hrun & Htr & Hbeats & Hlen & _).
  exists w', health, beats, rest. split; [exact Hrun|]. split; [exact Htr|].
  split; [exact (Forall2_length _ _ _ Hbeats)|exact Hlen].
Defined.

Lemma submit_workflow_first_step_witness :
  getitem review_step "agent" = Some (JStr (AgentType_value LOCAL_CLAUDE)) /\
  getitem review_step "task" = Some (JStr (TaskType_value CODE_REVIEW)) /\
  exists c w' o' task t,
    submit_workflow [review_step; unknown_step] [("code", JStr "print(1)")] = Some c /\
    c quiet_world waiting = (w', o', Ok "task-0") /\
    tasks o' !! "task-0" = Some task /\ objects o' !! task = Some t /\
    target_agent t = LOCAL_CLAUDE /\ task_type t = CODE_REVIEW.
Proof.
  split; [reflexivity|]. split; [reflexivity|].
  destruct (submit_workflow_first_step review_step [unknown_step]
              [("code", JStr "print(1)")] LOCAL_CLAUDE CODE_REVIEW quiet_world waiting
              eq_refl eq_refl)
    as (c & w' & o' & task & t & Hc & Hrun & Htask & Hobj & Htgt & Hkind & _).
  exists c, w', o', task, t. repeat split; assumption.
Defined.

Lemma submit_workflow_rejects_early_witness :
  names_no_member TaskType_value numbered_step "task" /\
  exists c e,
    submit_workflow [numbered_step; review_step] [] = Some c /\
    c quiet_world waiting = (quiet_world, waiting, Raise e).
Proof.
  assert (Hbad : names_no_member TaskType_value numbered_step "task")
    by (left; reflexivity).
  split; [exact Hbad|].
  exact (submit_workflow_rejects_early [numbered_step; review_step] [] quiet_world waiting
           (or_intror Hbad)).
Defined.

Lemma task_round_trip_witness :
  valid (JDict (payload sample_request)) = true /\
  send_ok quiet_world (mq waiting) = true /\
  exists w1 o1 task t,
    submit_task LOCAL_CLAUDE CODE_REVIEW (payload sample_request) HIGH None
      quiet_world waiting = (w1, o1, Ok "task-0") /\
    exists w2 response w3 o2 r',
      handle_message reviewing_agent
        (request_of LOCAL_CLAUDE CODE_REVIEW (payload sample_request) HIGH quiet_world)
        quiet_world tt = (w2, tt, Ok (Some response)) /\
      _handle_response response quiet_world o1 = (w3, o2, r') /\
      objects o2 !! task = Some t /\ status t = "completed".
Proof.
  split; [reflexivity|]. split; [reflexivity|].
  assert (Hans : forall answer,
             process_task reviewing_agent (Some CODE_REVIEW) (payload sample_request)
             = Ok answer -> valid (JDict answer) = true)
    by (intros answer [= <-]; reflexivity).
  destruct (task_round_trip LOCAL_CLAUDE CODE_REVIEW (payload sample_request) HIGH None
              reviewing_agent quiet_world quiet_world quiet_world waiting tt
              eq_refl eq_refl Hans)
    as (w1 & o1 & name & r & Hrun & _ & _ & _ & w2 & response & Hh & _ & _ & _
        & w3 & o2 & r' & task & t & Hr & _ & Hobj & _ & Hst).
  cbn in Hst. destruct Hst as [Hst _].
  exists w1, o1, task, t. split; [exact Hrun|].
  exists w2, response, w3, o2, r'. repeat split; assumption.
Defined.

End Instances.
